(** * Verification of the AFCON match analyser and the fuel-price trend script

    Shallow embedding of [afcon_analysis.py] and [fuel_price_prediction.py].

    - Python [int] is [Z]. Python [float] is an IEEE-754 binary64 number,
      taken here as the standard library's executable specification
      [spec_float] with precision 53 and maximal exponent 1024, so that
      every value the scripts compute can be evaluated bit for bit.
    - A Python number is an [int] or a [float] ([num]); the arithmetic
      operators convert as Python does, and [round] and [str] follow
      CPython: correctly rounded decimals, shortest digit strings.
    - Exceptions are the [Raise] branch of the error monad [res]; an
      integer is written out in decimal only up to CPython's default limit
      of 4300 digits, and [ValueError] is raised beyond it.
    - The mapping from team names to records keeps its insertion order
      (an association list); the dictionaries a method returns are finite
      maps keyed by strings.
    - The report is the list of its lines, joined by line feeds; where
      its text depends on the order of the keys of a dictionary, the
      dictionary is taken with that order. [KeyError] and [IndexError]
      join the exceptions of the operations on numbers in
      [Report.outcome].

    The definitions come first, module by module; the properties follow. *)

From Stdlib Require Import ZArith QArith Qpower Qabs Lia Lqa Bool List.
From Stdlib Require Import Permutation Sorted.
From Stdlib.Floats Require Import SpecFloat.
From stdpp Require Import base option list strings gmap fin_maps.

Set Default Proof Using "Type".

(** ** Exceptions *)

Inductive exn : Set :=
| OverflowError
| ZeroDivisionError
| ValueError.

Inductive res (A : Type) : Type :=
| Raise (e : exn)
| Return (a : A).
Arguments Raise {A} e.
Arguments Return {A} a.

#[global] Instance res_ret : MRet res := fun A a => Return a.
#[global] Instance res_bind : MBind res := fun A B k m =>
  match m with
  | Raise e => Raise e
  | Return a => k a
  end.

#[global] Instance res_fmap : FMap res := fun A B f m =>
  match m with
  | Raise e => Raise e
  | Return a => Return (f a)
  end.

(** ** Binary64 arithmetic *)

Module B64.
Local Open Scope Z_scope.

Definition prec : Z := 53.
Definition emax : Z := 1024.

Definition add := SFadd prec emax.
Definition sub := SFsub prec emax.
Definition mul := SFmul prec emax.
Definition div := SFdiv prec emax.
Definition sqrt := SFsqrt prec emax.
Definition ltb := SFltb.

Definition is_finite (f : spec_float) : bool :=
  match f with
  | S754_zero _ | S754_finite _ _ _ => true
  | _ => false
  end.

Definition is_zero (f : spec_float) : bool :=
  match f with
  | S754_zero _ => true
  | _ => false
  end.

(** An integer as a (not necessarily normalised) mantissa with exponent 0. *)
Definition raw_of_Z (z : Z) : spec_float :=
  match z with
  | Z0 => S754_zero false
  | Zpos p => S754_finite false p 0
  | Zneg p => S754_finite true p 0
  end.

(** The binary64 number nearest to an integer, ties to even. *)
Definition of_Z (z : Z) : spec_float := binary_normalize prec emax z 0 false.

(** The binary64 number nearest to the quotient of two integers. *)
Definition of_ratio (a b : Z) : spec_float := div (raw_of_Z a) (raw_of_Z b).

(** A decimal literal [m * 10^-k] as the Python parser reads it. *)
Definition dec (m : Z) (k : Z) : spec_float := of_ratio m (10 ^ k).

(** Round a quotient of integers to the nearest integer, ties to even. *)
Definition rne_div (a b : Z) : Z :=
  let q := a / b in
  let r := a mod b in
  match 2 * r ?= b with
  | Lt => q
  | Gt => q + 1
  | Eq => if Z.even q then q else q + 1
  end.

(** Exact value of a finite number as a fraction [num / den], [den > 0]. *)
Definition exact (f : spec_float) : Z * Z :=
  match f with
  | S754_finite s m e =>
      let m' := if s then Zneg m else Zpos m in
      if 0 <=? e then (m' * 2 ^ e, 1) else (m', 2 ^ (- e))
  | _ => (0, 1)
  end.

Definition to_Q (f : spec_float) : Q :=
  let '(n, d) := exact f in Qmake n (Z.to_pos d).

(** [scaled f k] is the exact value of [f] times [10^k], rounded to the
    nearest integer with ties to even. *)
Definition scaled (f : spec_float) (k : Z) : Z :=
  let '(n, d) := exact f in rne_div (n * 10 ^ k) d.

(** [float.__round__(x, ndigits)] for [0 <= ndigits]: the decimal with
    [ndigits] fractional digits nearest to the exact value of [x] (ties to
    even), read back as the nearest binary64 number. Infinities, NaN and
    zeros are returned unchanged. *)
Definition round (f : spec_float) (ndigits : Z) : spec_float :=
  match f with
  | S754_finite s _ _ =>
      match scaled f ndigits with
      | Z0 => S754_zero s
      | n => of_ratio n (10 ^ ndigits)
      end
  | _ => f
  end.

(** Powers of two and dyadic numbers [m * 2^e] as rationals. *)
Definition pow2 (e : Z) : Q := Qpower (2 # 1) e.
Definition dyadic (m e : Z) : Q := inject_Z m * pow2 e.

(** The number that [binary_round_aux] builds from a rounded mantissa [m]
    and its exponent [e]. *)
Definition rounded (sx : bool) (m e : Z) : spec_float :=
  match m with
  | Z0 => S754_zero sx
  | Zpos p => if e <=? emax - prec then S754_finite sx p e else S754_infinity sx
  | Zneg _ => S754_nan
  end.

End B64.

(** ** Decimal rendering: Python's [str] of numbers *)

Module Repr.
Local Open Scope string_scope.
Local Open Scope Z_scope.

Definition digit_char (d : Z) : string :=
  match d with
  | 0 => "0" | 1 => "1" | 2 => "2" | 3 => "3" | 4 => "4"
  | 5 => "5" | 6 => "6" | 7 => "7" | 8 => "8" | _ => "9"
  end.

Fixpoint digits_fuel (fuel : nat) (z : Z) (acc : string) : string :=
  match fuel with
  | O => acc
  | S fuel' =>
      let acc' := digit_char (z mod 10) ++ acc in
      if z <? 10 then acc' else digits_fuel fuel' (z / 10) acc'
  end.

(** Decimal digits of a non-negative integer. *)
Definition digits (z : Z) : string :=
  digits_fuel (S (Z.to_nat (Z.log2 z))) z "".

(** The decimal numeral of an integer: what [str(int)] returns when it
    returns, see [str_int_limit]. *)
Definition str_int (z : Z) : string :=
  if z <? 0 then "-" ++ digits (- z) else digits z.

(** [sys.get_int_max_str_digits()]: CPython's default limit on the number
    of digits of an integer that is converted to a string. *)
Definition max_str_digits : Z := 4300.

(** The integers of at most [max_str_digits] decimal digits. *)
Definition fits (z : Z) : Prop := Z.abs z < 10 ^ max_str_digits.

(** [str(z)], and [format(z, spec)] in decimal, of an integer of any
    size: [ValueError] beyond the limit on the number of digits. *)
Definition str_int_limit (z : Z) : res string :=
  if 10 ^ max_str_digits <=? Z.abs z then Raise ValueError
  else Return (str_int z).
#[global] Arguments str_int_limit : simpl never.

Fixpoint strip_zeros_fuel (fuel : nat) (c : Z) (e : Z) : Z * Z :=
  match fuel with
  | O => (c, e)
  | S fuel' =>
      if (c mod 10 =? 0) && (0 <? c) then strip_zeros_fuel fuel' (c / 10) (e + 1)
      else (c, e)
  end.

(** Least [j >= 0], searched from [j], with [d <= n * 10^j]. *)
Fixpoint lead_fuel (fuel : nat) (n d : Z) (j : Z) : Z :=
  match fuel with
  | O => j
  | S fuel' => if d <=? n * 10 ^ j then j else lead_fuel fuel' n d (j + 1)
  end.

(** Position of the decimal point: the [p] with
    [10^(p-1) <= n/d < 10^p], for [0 < n] and [0 < d]. *)
Definition decpt (n d : Z) : Z :=
  if d <=? n then Z.of_nat (String.length (digits (n / d)))
  else 1 - lead_fuel (S (Z.to_nat (Z.log2 d))) n d 1.

(** Does the decimal [c * 10^e] read back as the finite number [f]? *)
Definition reads_back (f : spec_float) (c e : Z) : bool :=
  let g := if 0 <=? e then B64.of_ratio (c * 10 ^ e) 1
           else B64.of_ratio c (10 ^ (- e)) in
  match f, g with
  | S754_finite _ m1 e1, S754_finite _ m2 e2 => (Zpos m1 =? Zpos m2) && (e1 =? e2)
  | _, _ => false
  end.

(** The [k]-digit decimal closest to [n/d] among those that read back as
    [f], as coefficient and exponent, if there is one. *)
Definition candidate (f : spec_float) (n d p : Z) (k : Z) : option (Z * Z) :=
  let e := p - k in
  let '(a, b) := if 0 <=? e then (n, d * 10 ^ e) else (n * 10 ^ (- e), d) in
  let lo := a / b in
  let r := a mod b in
  let hi := lo + 1 in
  let oklo := reads_back f lo e in
  let okhi := reads_back f hi e in
  if r =? 0 then (if oklo then Some (lo, e) else None)
  else
    match oklo, okhi with
    | true, true =>
        match 2 * r ?= b with
        | Lt => Some (lo, e)
        | Gt => Some (hi, e)
        | Eq => Some (if Z.even lo then lo else hi, e)
        end
    | true, false => Some (lo, e)
    | false, true => Some (hi, e)
    | false, false => None
    end.

Fixpoint shortest (f : spec_float) (n d p : Z) (ks : list Z) : Z * Z :=
  match ks with
  | [] => (0, 0)
  | k :: ks' =>
      match candidate f n d p k with
      | Some ce => ce
      | None => shortest f n d p ks'
      end
  end.

Fixpoint zeros (n : nat) : string :=
  match n with
  | O => ""
  | S n' => "0" ++ zeros n'
  end.

Definition substr_from (i : nat) (s : string) : string :=
  String.substring i (String.length s - i) s.

(** [repr] of a positive finite number: shortest digit string that reads
    back, in fixed notation for decimal points from [-3] to [16] and in
    exponent notation otherwise. *)
Definition repr_pos (f : spec_float) : string :=
  let '(n, d) := B64.exact f in
  let p := decpt n d in
  let '(c0, e0) := shortest f n d p (seqZ 1 17) in
  let '(c, e) := strip_zeros_fuel 20 c0 e0 in
  let ds := digits c in
  let nd := Z.of_nat (String.length ds) in
  let pt := nd + e in
  if (pt <=? -4) || (16 <? pt) then
    let x := pt - 1 in
    let mant := if nd =? 1 then ds
                else String.substring 0 1 ds ++ "." ++ substr_from 1 ds in
    let xs := digits (Z.abs x) in
    mant ++ "e" ++ (if x <? 0 then "-" else "+")
         ++ (if Z.abs x <? 10 then "0" else "") ++ xs
  else if pt <=? 0 then "0." ++ zeros (Z.to_nat (- pt)) ++ ds
  else if nd <=? pt then ds ++ zeros (Z.to_nat (pt - nd)) ++ ".0"
  else String.substring 0 (Z.to_nat pt) ds ++ "." ++ substr_from (Z.to_nat pt) ds.

(** [str(float)] *)
Definition str_float (f : spec_float) : string :=
  match f with
  | S754_nan => "nan"
  | S754_infinity s => if s then "-inf" else "inf"
  | S754_zero s => if s then "-0.0" else "0.0"
  | S754_finite s m e =>
      (if s then "-" else "") ++ repr_pos (S754_finite false m e)
  end.

End Repr.

(** ** Python numbers *)

Inductive num : Set :=
| NInt (z : Z)
| NFloat (f : spec_float).

Module Num.
Local Open Scope Z_scope.

(** Conversion of an operand to [float]; an [int] beyond the binary64
    range raises [OverflowError]. *)
Definition to_float (n : num) : res spec_float :=
  match n with
  | NInt z =>
      let f := B64.of_Z z in
      if B64.is_finite f then Return f else Raise OverflowError
  | NFloat f => Return f
  end.

Definition arith (iop : Z → Z → Z) (fop : spec_float → spec_float → spec_float)
    (a b : num) : res num :=
  match a, b with
  | NInt x, NInt y => Return (NInt (iop x y))
  | _, _ => x ← to_float a; y ← to_float b; Return (NFloat (fop x y))
  end.

Definition add := arith Z.add B64.add.
Definition sub := arith Z.sub B64.sub.
Definition mul := arith Z.mul B64.mul.

(** True division [a / b]. *)
Definition truediv (a b : num) : res num :=
  match a, b with
  | NInt x, NInt y =>
      if y =? 0 then Raise ZeroDivisionError
      else
        let f := B64.of_ratio x y in
        if B64.is_finite f then Return (NFloat f) else Raise OverflowError
  | _, _ =>
      x ← to_float a; y ← to_float b;
      if B64.is_zero y then Raise ZeroDivisionError
      else Return (NFloat (B64.div x y))
  end.

(** Exact comparison of a float with an integer. *)
Definition cmp_float_int (f : spec_float) (z : Z) : option comparison :=
  match f with
  | S754_nan => None
  | S754_infinity s => Some (if s then Lt else Gt)
  | _ => let '(n, d) := B64.exact f in Some (n ?= z * d)
  end.

Definition compare (a b : num) : option comparison :=
  match a, b with
  | NInt x, NInt y => Some (x ?= y)
  | NFloat f, NFloat g => SFcompare f g
  | NFloat f, NInt y => cmp_float_int f y
  | NInt x, NFloat g => CompOpp <$> cmp_float_int g x
  end.

(** [a > b] *)
Definition gt (a b : num) : bool :=
  match compare a b with
  | Some Gt => true
  | _ => false
  end.

(** [a <= b] *)
Definition le (a b : num) : bool :=
  match compare a b with
  | Some (Lt | Eq) => true
  | _ => false
  end.

(** [a < b] *)
Definition lt (a b : num) : bool :=
  match compare a b with
  | Some Lt => true
  | _ => false
  end.

(** [round(x, ndigits)] with [0 <= ndigits]: an [int] is returned as it
    is, a [float] is rounded to [ndigits] decimals. *)
Definition round (x : num) (ndigits : Z) : num :=
  match x with
  | NInt z => NInt z
  | NFloat f => NFloat (B64.round f ndigits)
  end.

(** The operators on computations that may raise, operands evaluated from
    left to right. *)
Definition lift2 (op : num → num → res num) (x y : res num) : res num :=
  a ← x; b ← y; op a b.

(** The number of tenths in [round(x, 1)]: the rounded value is the
    decimal [tenths / 10]. Undefined for infinities and NaN. *)
Definition tenths (x : num) : option Z :=
  match x with
  | NInt z => Some (10 * z)
  | NFloat f => if B64.is_finite f then Some (B64.scaled f 1) else None
  end.

(** [str(x)], as interpolated by an f-string, of a metric or of a
    probability: a float, or an integer within the limit on digits (the
    program has 0 and 50 there). *)
Definition str (x : num) : string :=
  match x with
  | NInt z => Repr.str_int z
  | NFloat f => Repr.str_float f
  end.

End Num.

(** ** afcon_analysis.py *)

Module Afcon.
Local Open Scope Z_scope.

(** The float literals of the module. *)
Definition lit_0_3 : spec_float := B64.dec 3 1.
Definition lit_1_5 : spec_float := B64.dec 15 1.

Record TeamStats : Set := {
  name : string;
  group : string;
  fifa_rank : Z;
  matches_played : Z;
  wins : Z;
  draws : Z;
  losses : Z;
  goals_for : Z;
  goals_against : Z;
  points : Z
}.

Definition goal_difference (self : TeamStats) : Z :=
  goals_for self - goals_against self.

Definition avg_goals_per_match (self : TeamStats) : res num :=
  if matches_played self =? 0 then Return (NInt 0)
  else
    q ← Num.truediv (NInt (goals_for self)) (NInt (matches_played self));
    Return (Num.round q 2).

Definition win_percentage (self : TeamStats) : res num :=
  if matches_played self =? 0 then Return (NInt 0)
  else
    q ← Num.truediv (NInt (wins self)) (NInt (matches_played self));
    p ← Num.mul q (NInt 100);
    Return (Num.round p 2).

Definition defense_strength (self : TeamStats) : res num :=
  if matches_played self =? 0 then Return (NInt 0)
  else
    q ← Num.truediv (NInt (goals_against self)) (NInt (matches_played self));
    Return (Num.round q 2).

(** The integers of a record that enter the floating-point arithmetic as
    numerators or factors (rank, wins, goals for and against) are within
    the range of binary64 numbers: none of the conversions to [float] can
    overflow. The divisor [matches_played] and the fields [points],
    [draws] and [losses] are not bounded by this predicate. *)
Definition in_float_range (t : TeamStats) : Prop :=
  Z.abs (fifa_rank t) < 2 ^ 999
  ∧ Z.abs (wins t) < 2 ^ 1000
  ∧ Z.abs (goals_for t) < 2 ^ 1000
  ∧ Z.abs (goals_against t) < 2 ^ 1000.

(** Every integer of a record that the comparison or the report writes
    out has at most [Repr.max_str_digits] digits. *)
Definition in_str_range (t : TeamStats) : Prop :=
  Repr.fits (fifa_rank t)
  ∧ Repr.fits (matches_played t)
  ∧ Repr.fits (wins t)
  ∧ Repr.fits (draws t)
  ∧ Repr.fits (losses t)
  ∧ Repr.fits (goals_for t)
  ∧ Repr.fits (goals_against t)
  ∧ Repr.fits (goal_difference t)
  ∧ Repr.fits (points t).

(** A metric is the integer 0 or a float. *)
Definition zero_or_float (x : num) : Prop := x = NInt 0 ∨ ∃ f, x = NFloat f.

(** *** The analyser: an insertion-ordered mapping from names to teams *)

Definition dict (V : Type) : Type := list (string * V).

Fixpoint dict_get {V} (d : dict V) (k : string) : option V :=
  match d with
  | [] => None
  | (k', v) :: d' => if String.eqb k' k then Some v else dict_get d' k
  end.

(** [d[k] = v]: an existing key keeps its place, a new one goes last. *)
Fixpoint dict_set {V} (d : dict V) (k : string) (v : V) : dict V :=
  match d with
  | [] => [(k, v)]
  | (k', v') :: d' =>
      if String.eqb k' k then (k', v) :: d' else (k', v') :: dict_set d' k v
  end.

Definition dict_values {V} (d : dict V) : list V := map snd d.

Record AFCONAnalyzer : Type := {
  matches : list (gmap string string);
  teams : dict TeamStats;
  tournament_date : string
}.

Definition init : AFCONAnalyzer :=
  {| matches := []; teams := []; tournament_date := "December 24, 2025" |}.

Definition add_team (self : AFCONAnalyzer) (team : TeamStats) : AFCONAnalyzer :=
  {| matches := matches self;
     teams := dict_set (teams self) (name team) team;
     tournament_date := tournament_date self |}.

Definition add_match (self : AFCONAnalyzer) (match_info : gmap string string)
    : AFCONAnalyzer :=
  {| matches := matches self ++ [match_info];
     teams := teams self;
     tournament_date := tournament_date self |}.

Definition get_team (self : AFCONAnalyzer) (n : string) : option TeamStats :=
  dict_get (teams self) n.

(** The dictionary display [{k1: v1, k2: v2}]; when the two keys are
    equal the second value wins. The dictionaries handed back to the caller
    are finite maps: Python compares dictionaries regardless of the order
    of insertion. *)
Definition dict2 {V} (k1 : string) (v1 : V) (k2 : string) (v2 : V)
    : gmap string V :=
  <[k2 := v2]> (<[k1 := v1]> ∅).

Record comparison : Type := {
  match_up : string;
  fifa_ranks : gmap string Z;
  cmp_points : gmap string Z;
  cmp_goal_difference : gmap string Z;
  offensive_power : gmap string num;
  defensive_strength : gmap string string;
  cmp_win_percentage : gmap string string;
  recent_form : gmap string string
}.

(** What [compare_teams] returns: the dictionary with the single key
    ["error"], or the comparison. *)
Inductive compare_result : Type :=
| CompareError (msg : string)
| Comparison (c : comparison).

Definition compare_teams (self : AFCONAnalyzer) (team1_name team2_name : string)
    : res compare_result :=
  match get_team self team1_name, get_team self team2_name with
  | Some team1, Some team2 =>
      o1 ← avg_goals_per_match team1;
      o2 ← avg_goals_per_match team2;
      d1 ← defense_strength team1;
      d2 ← defense_strength team2;
      w1 ← win_percentage team1;
      w2 ← win_percentage team2;
      m1 ← Repr.str_int_limit (matches_played team1);
      m2 ← Repr.str_int_limit (matches_played team2);
      Return (Comparison {|
        match_up := team1_name +:+ " vs " +:+ team2_name;
        fifa_ranks :=
          dict2 team1_name (fifa_rank team1) team2_name (fifa_rank team2);
        cmp_points :=
          dict2 team1_name (points team1) team2_name (points team2);
        cmp_goal_difference :=
          dict2 team1_name (goal_difference team1)
                team2_name (goal_difference team2);
        offensive_power := dict2 team1_name o1 team2_name o2;
        defensive_strength :=
          dict2 team1_name (Num.str d1 +:+ " goals/match")
                team2_name (Num.str d2 +:+ " goals/match");
        cmp_win_percentage :=
          dict2 team1_name (Num.str w1 +:+ "%")
                team2_name (Num.str w2 +:+ "%");
        recent_form :=
          dict2 team1_name (m1 +:+ " matches played")
                team2_name (m2 +:+ " matches played")
      |})
  | _, _ => Return (CompareError "One or both teams not found")
  end.


(** *** Group standings *)

(** The sort key [(x.points, x.goal_difference)] and the order of tuples. *)
Definition sort_key (x : TeamStats) : Z * Z := (points x, goal_difference x).

Definition key_ltb (a b : Z * Z) : bool :=
  (a.1 <? b.1) || ((a.1 =? b.1) && (a.2 <? b.2)).

(** [x] does not rank below [y]: the key of [x] is not the smaller one. *)
Definition not_below {A} (key : A → Z * Z) (x y : A) : Prop :=
  key_ltb (key x) (key y) = false.

(** [sorted(l, key=key, reverse=True)]: a stable sort into descending
    order of keys, elements with equal keys keeping their order. *)
Fixpoint insert_desc {A} (key : A → Z * Z) (x : A) (l : list A) : list A :=
  match l with
  | [] => [x]
  | y :: l' =>
      if key_ltb (key x) (key y) then y :: insert_desc key x l'
      else x :: y :: l'
  end.

Definition sorted_reverse {A} (key : A → Z * Z) (l : list A) : list A :=
  foldr (insert_desc key) [] l.

(** [enumerate(l, start)] *)
Fixpoint enumerate {A} (l : list A) (start : Z) : list (Z * A) :=
  match l with
  | [] => []
  | x :: l' => (start, x) :: enumerate l' (start + 1)
  end.

Record standing : Set := {
  position : Z;
  st_team : string;
  st_points : Z;
  st_matches : Z;
  st_wins : Z;
  st_draws : Z;
  st_losses : Z;
  st_goals_for : Z;
  st_goals_against : Z;
  st_goal_difference : Z
}.

Definition standing_of (idx : Z) (team : TeamStats) : standing :=
  {| position := idx;
     st_team := name team;
     st_points := points team;
     st_matches := matches_played team;
     st_wins := wins team;
     st_draws := draws team;
     st_losses := losses team;
     st_goals_for := goals_for team;
     st_goals_against := goals_against team;
     st_goal_difference := goal_difference team |}.

Definition analyze_group (self : AFCONAnalyzer) (g : string) : list standing :=
  let group_teams :=
    List.filter (λ team, String.eqb (group team) g) (dict_values (teams self)) in
  let sorted_teams := sorted_reverse sort_key group_teams in
  map (λ it, standing_of it.1 it.2) (enumerate sorted_teams 1).

(** *** Outcome prediction *)

(** The composite score of one team, in the order Python evaluates it. *)
Definition team_score (team : TeamStats) : res num :=
  a ← Num.mul (NInt (11 - fifa_rank team)) (NFloat lit_0_3);
  g ← avg_goals_per_match team;
  b ← Num.mul g (NInt 2);
  ab ← Num.add a b;
  d ← defense_strength team;
  c0 ← Num.sub (NInt 2) d;
  c ← Num.mul c0 (NFloat lit_1_5);
  Num.add ab c.

(** [team1_win_prob] from the two scores. *)
Definition win_prob (team1_score team2_score : num) : res num :=
  total_score ← Num.add team1_score team2_score;
  if Num.gt total_score (NInt 0) then
    q ← Num.truediv team1_score total_score;
    Num.mul q (NInt 100)
  else Return (NInt 50).

Record prediction_dict : Type := {
  pr_match : string;
  prediction : gmap string string;
  estimated_goals : gmap string num
}.

Inductive predict_result : Type :=
| PredictError (msg : string)
| Prediction (p : prediction_dict).

(** The two unrounded probabilities [team1_win_prob], [team2_win_prob]. *)
Definition win_probs (team1 team2 : TeamStats) : res (num * num) :=
  team1_score ← team_score team1;
  team2_score ← team_score team2;
  team1_win_prob ← win_prob team1_score team2_score;
  team2_win_prob ← Num.sub (NInt 100) team1_win_prob;
  Return (team1_win_prob, team2_win_prob).

Definition predict_outcome (self : AFCONAnalyzer) (team1_name team2_name : string)
    : res predict_result :=
  match get_team self team1_name, get_team self team2_name with
  | Some team1, Some team2 =>
      '(team1_win_prob, team2_win_prob) ← win_probs team1 team2;
      g1 ← avg_goals_per_match team1;
      g2 ← avg_goals_per_match team2;
      Return (Prediction {|
        pr_match := team1_name +:+ " vs " +:+ team2_name;
        prediction :=
          dict2 team1_name (Num.str (Num.round team1_win_prob 1) +:+ "%")
                team2_name (Num.str (Num.round team2_win_prob 1) +:+ "%");
        estimated_goals :=
          dict2 team1_name (Num.round g1 1) team2_name (Num.round g2 1)
      |})
  | _, _ => Return (PredictError "One or both teams not found")
  end.

(** *** The properties stated of the prediction *)

(** The score formula as the specification words it,
    [(11 - rank) * 0.3 + avg_goals * 2 + (2 - defense_strength) * 1.5]. *)
Definition composite_score_spec (team : TeamStats) : res num :=
  Num.lift2 Num.add
    (Num.lift2 Num.add
       (Num.lift2 Num.mul (Return (NInt (11 - fifa_rank team)))
                          (Return (NFloat lit_0_3)))
       (Num.lift2 Num.mul (avg_goals_per_match team) (Return (NInt 2))))
    (Num.lift2 Num.mul
       (Num.lift2 Num.sub (Return (NInt 2)) (defense_strength team))
       (Return (NFloat lit_1_5))).

(** The two probabilities, each rounded to one decimal, sum to 100.0
    within 0.1: as numbers of tenths, they sum to 1000 within 1. *)
Definition sum_to_100 (team1_win_prob team2_win_prob : num) : Prop :=
  ∃ k1 k2 : Z,
    Num.tenths team1_win_prob = Some k1
    ∧ Num.tenths team2_win_prob = Some k2
    ∧ Z.abs (k1 + k2 - 1000) <= 1.

(** The prediction favours the first team: its rounded win probability
    is above 50. *)
Definition favours_first (self : AFCONAnalyzer) (team1_name team2_name : string)
    : Prop :=
  ∃ team1 team2 p1 p2,
    get_team self team1_name = Some team1
    ∧ get_team self team2_name = Some team2
    ∧ win_probs team1 team2 = Return (p1, p2)
    ∧ Num.gt (Num.round p1 1) (NInt 50) = true.

(** *** The data set built by [main] *)

Definition mk_team (n g : string) (rank played w d l gf ga pts : Z) : TeamStats :=
  {| name := n; group := g; fifa_rank := rank; matches_played := played;
     wins := w; draws := d; losses := l; goals_for := gf;
     goals_against := ga; points := pts |}.

Definition ivory_coast := mk_team "Ivory Coast" "A" 9 1 1 0 0 2 0 3.
Definition mozambique := mk_team "Mozambique" "A" 92 0 0 0 0 0 0 0.
Definition cameroon := mk_team "Cameroon" "A" 43 0 0 0 0 0 0 0.
Definition gabon := mk_team "Gabon" "A" 75 1 0 1 0 1 1 1.

Definition main_analyzer : AFCONAnalyzer :=
  let a := add_team init ivory_coast in
  let a := add_team a mozambique in
  let a := add_team a cameroon in
  let a := add_team a gabon in
  let a := add_match a (dict2 "time" "12:00 PM ET" "match" "Ivory Coast vs Mozambique") in
  add_match a (dict2 "time" "2:30 PM ET" "match" "Cameroon vs Gabon").

(** Two teams that have not played yet, ranked 7th and 35th. *)
Definition team_7 := mk_team "Team 7" "A" 7 0 0 0 0 0 0 0.
Definition team_35 := mk_team "Team 35" "A" 35 0 0 0 0 0 0 0.

Definition near_tie_analyzer : AFCONAnalyzer :=
  add_team (add_team init team_7) team_35.

End Afcon.

(** ** The text report of afcon_analysis.py *)

Module Report.
Import Afcon.
Local Open Scope string_scope.

(** The exceptions of the report: those of the operations on numbers
    ([exn]), a missing dictionary key and a list index out of range. *)
Inductive error : Type :=
| Builtin (e : exn)
| KeyError (key : string)
| IndexError.

Inductive outcome (A : Type) : Type :=
| Fail (e : error)
| Done (a : A).
Arguments Fail {A} e.
Arguments Done {A} a.

#[global] Instance outcome_ret : MRet outcome := fun A a => Done a.
#[global] Instance outcome_bind : MBind outcome := fun A B k m =>
  match m with
  | Fail e => Fail e
  | Done a => k a
  end.

(** A call of one of the analyser's methods, or the formatting of a
    number, from the report. *)
Definition call {A} (m : res A) : outcome A :=
  match m with
  | Raise e => Fail (Builtin e)
  | Return a => Done a
  end.

(** *** Analysers as the methods build them *)

(** The analysers that can be reached from the constructor by calls of
    [add_team] and [add_match]. *)
Inductive built : AFCONAnalyzer → Prop :=
| built_init : built init
| built_add_team self team : built self → built (add_team self team)
| built_add_match self match_info : built self → built (add_match self match_info).

(** *** Strings *)

(** The line feed ["\n"]. *)
Definition nl : string := String (Ascii.ascii_of_nat 10) "".

(** [s * n] *)
Fixpoint repeat_string (s : string) (n : nat) : string :=
  match n with
  | O => ""
  | S n' => s +:+ repeat_string s n'
  end.

(** [sep.join(l)] *)
Definition join (sep : string) (l : list string) : string := String.concat sep l.

(** [format(s, '<w')]: [s] padded with spaces on the right up to the width
    [w], never cut. A character is one [ascii]. *)
Definition ljust (s : string) (w : nat) : string :=
  s +:+ repeat_string " " (w - String.length s).

(** [f"{z:<w}"] for an integer. *)
Definition ljust_int (z : Z) (w : nat) : res string :=
  s ← Repr.str_int_limit z; Return (ljust s w).

(** [f"{x}"] for a number of any size. *)
Definition str_num (x : num) : res string :=
  match x with
  | NInt z => Repr.str_int_limit z
  | NFloat f => Return (Repr.str_float f)
  end.

(** *** Dictionaries with their order of insertion *)

(** The display [{k1: v1, k2: v2}] as Python builds it: the second key is
    set after the first. *)
Definition display2 {V} (k1 : string) (v1 : V) (k2 : string) (v2 : V) : dict V :=
  dict_set (dict_set [] k1 v1) k2 v2.

(** [list(d.keys())] *)
Definition dict_keys {V} (d : dict V) : list string := map fst d.

(** [d[k]] *)
Definition subscript {V} (d : dict V) (k : string) : outcome V :=
  match dict_get d k with
  | Some v => Done v
  | None => Fail (KeyError k)
  end.

(** [m[k]] for a finite map. *)
Definition lookup_key {V} (m : gmap string V) (k : string) : outcome V :=
  match m !! k with
  | Some v => Done v
  | None => Fail (KeyError k)
  end.

(** [l[i]] *)
Definition item (l : list string) (i : nat) : outcome string :=
  match l !! i with
  | Some x => Done x
  | None => Fail IndexError
  end.

(** The comparison of [compare_teams] with the order in which the keys of
    its dictionaries were inserted, which [_format_comparison] reads. *)
Record ordered_comparison : Type := {
  oc_match_up : string;
  oc_fifa_ranks : dict Z;
  oc_points : dict Z;
  oc_goal_difference : dict Z;
  oc_offensive_power : dict num;
  oc_defensive_strength : dict string;
  oc_win_percentage : dict string;
  oc_recent_form : dict string
}.

Inductive ordered_result : Type :=
| OrderedError (msg : string)
| Ordered (c : ordered_comparison).

Definition compare_teams_ordered (self : AFCONAnalyzer)
    (team1_name team2_name : string) : res ordered_result :=
  match get_team self team1_name, get_team self team2_name with
  | Some team1, Some team2 =>
      o1 ← avg_goals_per_match team1;
      o2 ← avg_goals_per_match team2;
      d1 ← defense_strength team1;
      d2 ← defense_strength team2;
      w1 ← win_percentage team1;
      w2 ← win_percentage team2;
      m1 ← Repr.str_int_limit (matches_played team1);
      m2 ← Repr.str_int_limit (matches_played team2);
      Return (Ordered {|
        oc_match_up := team1_name +:+ " vs " +:+ team2_name;
        oc_fifa_ranks :=
          display2 team1_name (fifa_rank team1) team2_name (fifa_rank team2);
        oc_points :=
          display2 team1_name (points team1) team2_name (points team2);
        oc_goal_difference :=
          display2 team1_name (goal_difference team1)
                   team2_name (goal_difference team2);
        oc_offensive_power := display2 team1_name o1 team2_name o2;
        oc_defensive_strength :=
          display2 team1_name (Num.str d1 +:+ " goals/match")
                   team2_name (Num.str d2 +:+ " goals/match");
        oc_win_percentage :=
          display2 team1_name (Num.str w1 +:+ "%")
                   team2_name (Num.str w2 +:+ "%");
        oc_recent_form :=
          display2 team1_name (m1 +:+ " matches played")
                   team2_name (m2 +:+ " matches played")
      |})
  | _, _ => Return (OrderedError "One or both teams not found")
  end.

(** The same dictionaries without the order of their keys. *)
Definition forget_order (r : ordered_result) : compare_result :=
  match r with
  | OrderedError msg => CompareError msg
  | Ordered c =>
      Comparison {|
        match_up := oc_match_up c;
        fifa_ranks := list_to_map (oc_fifa_ranks c);
        cmp_points := list_to_map (oc_points c);
        cmp_goal_difference := list_to_map (oc_goal_difference c);
        offensive_power := list_to_map (oc_offensive_power c);
        defensive_strength := list_to_map (oc_defensive_strength c);
        cmp_win_percentage := list_to_map (oc_win_percentage c);
        recent_form := list_to_map (oc_recent_form c)
      |}
  end.

(** *** [_format_comparison] *)

(** The line [f"  {teams[i]}: {pre}{d[teams[i]]}"]. *)
Definition team_line {V} (show : V → res string) (pre : string) (d : dict V)
    (teams : list string) (i : nat) : outcome string :=
  t ← item teams i;
  v ← subscript d t;
  text ← call (show v);
  Done ("  " +:+ t +:+ ": " +:+ pre +:+ text).

(** A heading followed by the lines of [teams[0]] and [teams[1]]: the
    method appends these three lines five times over. *)
Definition heading_block {V} (heading : string) (show : V → res string)
    (pre : string) (d : dict V) (teams : list string) : outcome (list string) :=
  l0 ← team_line show pre d teams 0;
  l1 ← team_line show pre d teams 1;
  Done [heading; l0; l1].

Definition _format_comparison (comparison : ordered_result) : outcome string :=
  match comparison with
  | OrderedError msg => Done msg
  | Ordered c =>
      let teams := dict_keys (oc_fifa_ranks c) in
      ranks ← heading_block "FIFA Rankings:" Repr.str_int_limit "#"
                (oc_fifa_ranks c) teams;
      pts ← heading_block (nl +:+ "Points (Group Stage):") Repr.str_int_limit ""
              (oc_points c) teams;
      gd ← heading_block (nl +:+ "Goal Difference:") Repr.str_int_limit ""
             (oc_goal_difference c) teams;
      off ← heading_block (nl +:+ "Offensive Power (Goals/Match):") str_num ""
              (oc_offensive_power c) teams;
      def ← heading_block (nl +:+ "Defensive Strength:") Return ""
              (oc_defensive_strength c) teams;
      Done (join nl
              (["Match-up: " +:+ oc_match_up c; ""]
               ++ ranks ++ pts ++ gd ++ off ++ def)%list)
  end.

(** *** [generate_report] *)

(** [prediction['prediction']] and [prediction['estimated_goals']]: the
    error dictionary has neither key. *)
Definition prediction_entry (r : predict_result) : outcome (gmap string string) :=
  match r with
  | PredictError _ => Fail (KeyError "prediction")
  | Prediction p => Done (prediction p)
  end.

Definition estimated_goals_entry (r : predict_result) : outcome (gmap string num) :=
  match r with
  | PredictError _ => Fail (KeyError "estimated_goals")
  | Prediction p => Done (estimated_goals p)
  end.

(** The lines of one fixture: its title, the formatted comparison and the
    prediction. The method writes this block out twice, once for each pair
    of names. *)
Definition fixture_lines (self : AFCONAnalyzer) (title team1 team2 : string)
    : outcome (list string) :=
  comparison ← call (compare_teams_ordered self team1 team2);
  formatted ← _format_comparison comparison;
  prediction ← call (predict_outcome self team1 team2);
  p ← prediction_entry prediction;
  p1 ← lookup_key p team1;
  p ← prediction_entry prediction;
  p2 ← lookup_key p team2;
  g ← estimated_goals_entry prediction;
  g1 ← lookup_key g team1;
  goals1 ← call (str_num g1);
  g ← estimated_goals_entry prediction;
  g2 ← lookup_key g team2;
  goals2 ← call (str_num g2);
  Done [title;
        repeat_string "-" 70;
        formatted;
        nl +:+ "Match Prediction:";
        "  " +:+ team1 +:+ " Win Probability: " +:+ p1;
        "  " +:+ team2 +:+ " Win Probability: " +:+ p2;
        "  Expected Goals - " +:+ team1 +:+ ": " +:+ goals1;
        "  Expected Goals - " +:+ team2 +:+ ": " +:+ goals2;
        ""].

Definition standings_header : string :=
  ljust "Pos" 5 +:+ ljust "Team" 20 +:+ ljust "P" 3 +:+ ljust "W" 3
  +:+ ljust "D" 3 +:+ ljust "L" 3 +:+ ljust "GF" 4 +:+ ljust "GA" 4
  +:+ ljust "GD" 4 +:+ ljust "Pts" 4.

(** One row of the table: the ten fields are formatted from left to
    right. *)
Definition standing_row (s : standing) : res string :=
  pos ← ljust_int (position s) 5;
  p ← ljust_int (st_matches s) 3;
  w ← ljust_int (st_wins s) 3;
  d ← ljust_int (st_draws s) 3;
  l ← ljust_int (st_losses s) 3;
  gf ← ljust_int (st_goals_for s) 4;
  ga ← ljust_int (st_goals_against s) 4;
  gd ← ljust_int (st_goal_difference s) 4;
  pts ← ljust_int (st_points s) 4;
  Return (pos +:+ ljust (st_team s) 20 +:+ p +:+ w +:+ d +:+ l
          +:+ gf +:+ ga +:+ gd +:+ pts).

(** The rows appended by the loop over the standings. *)
Fixpoint standing_rows (standings : list standing) : res (list string) :=
  match standings with
  | [] => Return []
  | s :: rest =>
      row ← standing_row s;
      rows ← standing_rows rest;
      Return (row :: rows)
  end.

Definition analysis_notes : list string :=
  [""; repeat_string "=" 70; "ANALYSIS NOTES:"; repeat_string "=" 70;
   "- Ivory Coast are the defending champions and expected favorites";
   "- Cameroon has strong attacking potential in African football";
   "- Mozambique and Gabon are less favored but can provide upsets";
   "- Group A is competitive with experienced tournament teams";
   ""].

(** The list [report] at the end of the method. *)
Definition report_lines (self : AFCONAnalyzer) : outcome (list string) :=
  match1 ← fixture_lines self "MATCH 1: IVORY COAST vs MOZAMBIQUE"
             "Ivory Coast" "Mozambique";
  match2 ← fixture_lines self "MATCH 2: CAMEROON vs GABON" "Cameroon" "Gabon";
  rows ← call (standing_rows (analyze_group self "A"));
  Done ([repeat_string "=" 70;
         "AFCON 2025 - Match Analysis Report";
         "Date: " +:+ tournament_date self;
         repeat_string "=" 70;
         ""]
        ++ match1 ++ match2
        ++ ["GROUP A STANDINGS"; repeat_string "-" 70;
            standings_header; repeat_string "-" 70]
        ++ rows
        ++ analysis_notes)%list.

Definition generate_report (self : AFCONAnalyzer) : outcome string :=
  report ← report_lines self;
  Done (join nl report).

End Report.

(** ** fuel_price_prediction.py *)

Module Fuel.
Local Open Scope Z_scope.

Definition lit_0_01 : spec_float := B64.dec 1 2.

(** [np.arange(1, 13)] and [np.array([13, 14, 15])] as float64 values. *)
Definition month_numbers : list spec_float := map B64.of_Z (seqZ 1 12).
Definition future_months : list spec_float := map B64.of_Z [13; 14; 15].

(** The five values returned by [scipy.stats.linregress]. *)
Record LinregressResult : Set := {
  slope : spec_float;
  intercept : spec_float;
  r_value : spec_float;
  p_value : spec_float;
  std_err : spec_float
}.

(** An entry of the [predictions] dictionary. *)
Record fuel_prediction : Set := {
  fp_slope : spec_float;
  r_squared : spec_float;
  current_price : option spec_float;
  predicted_prices : list spec_float;
  trend : string
}.

(** The classification of the slope. *)
Definition classify (slope : spec_float) : string :=
  if B64.ltb lit_0_01 slope then "UPWARD"
  else if B64.ltb slope (SFopp lit_0_01) then "DOWNWARD"
  else "STABLE".

Section Loop.
(** [scipy.stats.linregress] is a library function outside the
    repository; the loop body is taken for any such function. *)
Variable linregress : list spec_float → list spec_float → LinregressResult.

Definition predict (prices : list spec_float) : fuel_prediction :=
  let r := linregress month_numbers prices in
  let future_predictions :=
    map (λ m, B64.add (B64.mul (slope r) m) (intercept r)) future_months in
  {| fp_slope := slope r;
     r_squared := B64.mul (r_value r) (r_value r);
     current_price := last prices;
     predicted_prices := future_predictions;
     trend := classify (slope r) |}.
End Loop.

(** The series [prices[m] = 10 + 0.5 * m] over the twelve months. *)
Definition linear_prices : list spec_float :=
  map (λ m, B64.add (B64.of_Z 10) (B64.mul (B64.dec 5 1) m)) month_numbers.

(** Modelled from the spec: the ordinary-least-squares fit that
    [scipy.stats.linregress] computes (the library is not part of the
    repository), by the closed forms of section 4.5, slope as the ratio
    of covariance to variance, intercept from the means, and the square of
    the correlation coefficient, in exact rational arithmetic. *)
Module Ols.
Local Open Scope Q_scope.

Definition qsum (l : list Q) : Q := foldr Qplus 0 l.
Definition mean (l : list Q) : Q := qsum l / inject_Z (Z.of_nat (length l)).

Definition covariance (xs ys : list Q) : Q :=
  let mx := mean xs in
  let my := mean ys in
  mean (zip_with (λ x y, (x - mx) * (y - my)) xs ys).

Definition variance (xs : list Q) : Q := covariance xs xs.

Definition fit_slope (xs ys : list Q) : Q := covariance xs ys / variance xs.
Definition fit_intercept (xs ys : list Q) : Q :=
  mean ys - fit_slope xs ys * mean xs.
Definition fit_r_squared (xs ys : list Q) : Q :=
  (covariance xs ys * covariance xs ys) / (variance xs * variance ys).

Definition extrapolate (xs ys : list Q) (future : list Q) : list Q :=
  map (λ m, fit_slope xs ys * m + fit_intercept xs ys) future.

Definition months : list Q := map inject_Z (seqZ 1 12).
Definition future : list Q := map inject_Z [13; 14; 15]%Z.

(** The series [prices[m] = 10 + 0.5 * m]. *)
Definition linear_series : list Q := map (λ m, 10 + (1 # 2) * m) months.
End Ols.

(** Modelled from the spec: the same closed forms evaluated in binary64,
    sums taken from left to right, with the correlation coefficient as
    covariance over the square root of the product of the variances. *)
Module Ols64.

Definition fsum (l : list spec_float) : spec_float :=
  foldl B64.add (B64.of_Z 0) l.
Definition mean (l : list spec_float) : spec_float :=
  B64.div (fsum l) (B64.of_Z (Z.of_nat (length l))).

Definition covariance (xs ys : list spec_float) : spec_float :=
  let mx := mean xs in
  let my := mean ys in
  mean (zip_with (λ x y, B64.mul (B64.sub x mx) (B64.sub y my)) xs ys).

Definition variance (xs : list spec_float) : spec_float := covariance xs xs.

Definition fit_slope (xs ys : list spec_float) : spec_float :=
  B64.div (covariance xs ys) (variance xs).
Definition fit_intercept (xs ys : list spec_float) : spec_float :=
  B64.sub (mean ys) (B64.mul (fit_slope xs ys) (mean xs)).
Definition fit_r_value (xs ys : list spec_float) : spec_float :=
  B64.div (covariance xs ys) (B64.sqrt (B64.mul (variance xs) (variance ys))).

Definition linregress (xs ys : list spec_float) : LinregressResult :=
  {| slope := fit_slope xs ys;
     intercept := fit_intercept xs ys;
     r_value := fit_r_value xs ys;
     p_value := S754_nan;
     std_err := S754_nan |}.

End Ols64.

End Fuel.

(** ** The trend analysis printed by fuel_price_prediction.py *)

Module FuelReport.
Import Fuel.
Local Open Scope string_scope.

(** ["increase" if slope > 0 else "decrease"] *)
Definition direction (slope : spec_float) : string :=
  if B64.ltb (B64.of_Z 0) slope then "increase" else "decrease".

Section Loop.
Variable linregress : list spec_float → list spec_float → LinregressResult.

(** The analysis line of one fuel, printed when its trend is not
    ['STABLE']. *)
Definition analysis_line (prices : list spec_float) : option string :=
  let r := linregress month_numbers prices in
  let p := predict linregress prices in
  if negb (String.eqb (trend p) "STABLE") then
    Some ("  Analysis:                  Prices show a "
          +:+ direction (slope r) +:+ " trend throughout 2024")
  else None.
End Loop.

End FuelReport.

(** * Properties *)

(** ** The error monad *)

Lemma bind_Return {A B} (m : res A) (k : A → res B) (b : B) :
  m ≫= k = Return b ↔ ∃ a, m = Return a ∧ k a = Return b.
Proof.
  destruct m as [e|a]; cbn; split.
  - discriminate.
  - intros (a & Ha & _). discriminate.
  - eauto.
  - intros (a' & Ha & Hk). congruence.
Qed.

Lemma bind_Raise {A B} (m : res A) (k : A → res B) (e : exn) :
  m ≫= k = Raise e ↔ m = Raise e ∨ ∃ a, m = Return a ∧ k a = Raise e.
Proof.
  destruct m as [e'|a]; cbn; split.
  - intros [= ->]. by left.
  - intros [H|(a & Ha & _)]; congruence.
  - eauto.
  - intros [H|(a' & Ha & Hk)]; congruence.
Qed.

Lemma bind_ret_l {A B} (a : A) (k : A → res B) : Return a ≫= k = k a.
Proof. done. Qed.

(** ** The number model on known values *)

Module NumberChecks.
Local Open Scope Z_scope.

Example literal_0_3 :
  B64.dec 3 1 = S754_finite false 5404319552844595 (-54).
Proof. vm_compute. reflexivity. Qed.

Example int_to_float_ties_to_even : B64.of_Z (2 ^ 53 + 1) = B64.of_Z (2 ^ 53).
Proof. vm_compute. reflexivity. Qed.

Example int_too_large : Num.to_float (NInt (2 ^ 1024)) = Raise OverflowError.
Proof. vm_compute. reflexivity. Qed.

Example round_2_675 : B64.round (B64.dec 2675 3) 2 = B64.dec 267 2.
Proof. vm_compute. reflexivity. Qed.

Example round_half_even : B64.round (B64.dec 125 3) 2 = B64.dec 12 2.
Proof. vm_compute. reflexivity. Qed.

Example round_two_thirds :
  Num.str (Num.round (NFloat (B64.of_ratio 2 3)) 2) = "0.67".
Proof. vm_compute. reflexivity. Qed.

Example str_sum_of_tenths :
  Num.str (NFloat (B64.add (B64.dec 1 1) (B64.dec 2 1))) = "0.30000000000000004".
Proof. vm_compute. reflexivity. Qed.

Example str_1e16 : Num.str (NFloat (B64.of_Z (10 ^ 16))) = "1e+16".
Proof. vm_compute. reflexivity. Qed.

Example str_1e15 : Num.str (NFloat (B64.of_Z (10 ^ 15))) = "1000000000000000.0".
Proof. vm_compute. reflexivity. Qed.

Example str_small : Num.str (NFloat (B64.dec 15 6)) = "1.5e-05".
Proof. vm_compute. reflexivity. Qed.

Example str_negative_int : Num.str (NInt (-81)) = "-81".
Proof. vm_compute. reflexivity. Qed.

Example division_by_zero :
  Num.truediv (NFloat (B64.of_Z 1)) (NFloat (S754_zero false))
  = Raise ZeroDivisionError.
Proof. reflexivity. Qed.

End NumberChecks.

(** ** Binary64 rounding

    A coarse error analysis of the rounding performed by
    [binary_round_aux], enough to bound the error of a subtraction. *)

Module B64Facts.
Local Open Scope Z_scope.

Lemma digits2_pos_bounds (p : positive) :
  2 ^ (Zpos (digits2_pos p) - 1) <= Zpos p < 2 ^ Zpos (digits2_pos p).
Proof.
  induction p as [p IH|p IH|]; cbn [digits2_pos].
  - rewrite Pos2Z.inj_succ, (Pos2Z.inj_xI p).
    replace (Z.succ (Zpos (digits2_pos p)) - 1) with (Z.succ (Zpos (digits2_pos p) - 1)) by lia.
    rewrite !Z.pow_succ_r by lia. lia.
  - rewrite Pos2Z.inj_succ, (Pos2Z.inj_xO p).
    replace (Z.succ (Zpos (digits2_pos p)) - 1) with (Z.succ (Zpos (digits2_pos p) - 1)) by lia.
    rewrite !Z.pow_succ_r by lia. lia.
  - cbn. lia.
Qed.

Lemma Zdigits2_le (m k : Z) : 0 <= m < 2 ^ k -> 0 <= k -> 0 <= Zdigits2 m <= k.
Proof.
  intros [Hm Hlt] Hk. destruct m as [|p|p]; cbn; [lia| |lia].
  pose proof (digits2_pos_bounds p) as [Hlo _].
  split; [lia|].
  destruct (Z.le_gt_cases (Zpos (digits2_pos p)) k) as [|Hgt]; [done|].
  assert (2 ^ k <= 2 ^ (Zpos (digits2_pos p) - 1)) by (apply Z.pow_le_mono_r; lia).
  lia.
Qed.

Lemma shr_1_m (r : shr_record) :
  0 <= shr_m r -> shr_m (shr_1 r) = shr_m r / 2.
Proof.
  destruct r as [m rb sb]. cbn [shr_m]. intros Hm. unfold shr_1.
  destruct m as [|[p|p|]|p]; cbn [shr_m]; try lia; try done.
  - rewrite (Pos2Z.inj_xI p). apply (Z.div_unique _ _ _ 1); lia.
  - rewrite (Pos2Z.inj_xO p). apply (Z.div_unique _ _ _ 0); lia.
Qed.

Lemma iter_shr_1_m (p : positive) (r : shr_record) :
  0 <= shr_m r -> shr_m (SpecFloat.iter_pos shr_1 p r) = shr_m r / 2 ^ Zpos p.
Proof.
  revert r. induction p as [p IH|p IH|]; intros r Hr; cbn [SpecFloat.iter_pos].
  - assert (H1 : 0 <= shr_m (shr_1 r)) by (rewrite shr_1_m by done; apply Z.div_pos; lia).
    assert (H2 : 0 <= shr_m (SpecFloat.iter_pos shr_1 p (shr_1 r))) by (rewrite IH by done; apply Z.div_pos; lia).
    rewrite IH, IH, shr_1_m by done.
    rewrite !Z.div_div by lia. f_equal.
    rewrite (Pos2Z.inj_xI p).
    replace (2 * Zpos p + 1) with (1 + Zpos p + Zpos p) by lia.
    rewrite !Z.pow_add_r by lia. lia.
  - assert (H2 : 0 <= shr_m (SpecFloat.iter_pos shr_1 p r)) by (rewrite IH by done; apply Z.div_pos; lia).
    rewrite IH, IH by done.
    rewrite !Z.div_div by lia. f_equal.
    rewrite (Pos2Z.inj_xO p).
    replace (2 * Zpos p) with (Zpos p + Zpos p) by lia.
    rewrite !Z.pow_add_r by lia. lia.
  - by rewrite shr_1_m.
Qed.

(** The shift [shr] as a division. *)
Lemma shr_m_div (r : shr_record) (e n : Z) :
  0 <= shr_m r ->
  let k := Z.max n 0 in
  shr_m (fst (shr r e n)) = shr_m r / 2 ^ k ∧ snd (shr r e n) = e + k.
Proof.
  intros Hr k. subst k. unfold shr. destruct n as [|p|p]; cbn [fst snd].
  - rewrite Z.div_1_r. lia.
  - rewrite iter_shr_1_m by done. rewrite Z.max_l by lia. lia.
  - rewrite Z.max_r by lia. rewrite Z.div_1_r. lia.
Qed.

Lemma round_nearest_even_bounds (m : Z) (l : location) :
  m <= round_nearest_even m l <= m + 1.
Proof.
  unfold round_nearest_even. destruct l as [|[]]; try lia.
  destruct (Z.even m); lia.
Qed.

Lemma fexp_64 (e : Z) : fexp 53 1024 e = Z.max (e - 53) (-1074).
Proof. reflexivity. Qed.

Lemma Zdigits2_upper (m : Z) : 0 <= m → m < 2 ^ Zdigits2 m ∧ 0 <= Zdigits2 m.
Proof.
  intros Hm. destruct m as [|p|p]; cbn [Zdigits2]; [cbn; lia| |lia].
  pose proof (digits2_pos_bounds p). lia.
Qed.

Lemma shr_record_of_loc_m (m : Z) (l : location) :
  shr_m (shr_record_of_loc m l) = m.
Proof. by destruct l as [|[]]. Qed.

(** What [binary_round_aux] returns: a mantissa and an exponent that is
    bounded by the magnitude of the input, the mantissa being within one
    unit of the input mantissa at that exponent. *)
Lemma binary_round_aux_bound (sx : bool) (mx ez : Z) (lx : location) :
  0 <= mx →
  let G := Zdigits2 mx + ez in
  ∃ m2 e2,
    binary_round_aux 53 1024 sx mx ez lx = B64.rounded sx m2 e2
    ∧ 0 <= m2
    ∧ ez <= e2 <= Z.max ez (Z.max (G - 52) (-1074))
    ∧ Z.abs (m2 * 2 ^ (e2 - ez) - mx) <= 2 ^ (e2 - ez).
Proof.
  intros Hmx G. unfold binary_round_aux, shr_fexp.
  rewrite !fexp_64. fold G.
  set (n1 := Z.max (G - 53) (-1074) - ez).
  pose proof (shr_m_div (shr_record_of_loc mx lx) ez n1) as H1.
  rewrite shr_record_of_loc_m in H1. specialize (H1 Hmx). cbn zeta in H1.
  destruct (shr _ ez n1) as [mrs' e'] eqn:E1. cbn [fst snd] in H1.
  destruct H1 as [Hq He'].
  cbv beta iota. rewrite fexp_64.
  set (k1 := Z.max n1 0) in *.
  set (m1 := round_nearest_even (shr_m mrs') (loc_of_shr_record mrs')).
  pose proof (round_nearest_even_bounds (shr_m mrs') (loc_of_shr_record mrs')) as Hm1.
  fold m1 in Hm1. rewrite Hq in Hm1.
  set (q := mx / 2 ^ k1) in *.
  assert (Hk1 : 0 <= k1) by lia.
  assert (HA : 0 < 2 ^ k1) by (apply Z.pow_pos_nonneg; lia).
  assert (Hq0 : 0 <= q) by (apply Z.div_pos; lia).
  assert (Hqlo : 2 ^ k1 * q <= mx) by (apply Z.mul_div_le; lia).
  assert (Hqhi : mx < 2 ^ k1 * Z.succ q) by (apply Z.mul_succ_div_gt; lia).
  set (n2 := Z.max (Zdigits2 m1 + e' - 53) (-1074) - e').
  pose proof (shr_m_div (shr_record_of_loc m1 loc_Exact) e' n2) as H2.
  cbn [shr_m shr_record_of_loc] in H2. specialize (H2 ltac:(lia)). cbn zeta in H2.
  cbn [shr_record_of_loc].
  destruct (shr _ e' n2) as [mrs'' e''] eqn:E2. cbn [fst snd] in H2.
  destruct H2 as [Hm2 He''].
  set (k2 := Z.max n2 0) in *.
  assert (Hk2 : 0 <= k2) by lia.
  assert (HB : 0 < 2 ^ k2) by (apply Z.pow_pos_nonneg; lia).
  exists (shr_m mrs''), e''. rewrite Hm2.
  set (m2 := m1 / 2 ^ k2).
  assert (Hm20 : 0 <= m2) by (apply Z.div_pos; lia).
  assert (Hm2lo : 2 ^ k2 * m2 <= m1) by (apply Z.mul_div_le; lia).
  assert (Hm2hi : m1 < 2 ^ k2 * Z.succ m2) by (apply Z.mul_succ_div_gt; lia).
  split; [reflexivity|]. split; [done|].
  set (dig := Zdigits2 mx) in *.
  pose proof (Zdigits2_upper mx Hmx) as [Hdig Hdig0]. fold dig in Hdig, Hdig0.
  set (t := Z.max (dig - k1) 0).
  assert (Hqt : q + 1 <= 2 ^ t).
  { destruct (Z.le_gt_cases k1 dig) as [Hle|Hgt].
    - assert (q < 2 ^ (dig - k1)); [|unfold t; rewrite Z.max_l by lia; lia].
      apply Z.div_lt_upper_bound; [lia|].
      rewrite <- Z.pow_add_r by lia. replace (k1 + (dig - k1)) with dig by lia. done.
    - assert (q = 0); [|unfold t; rewrite Z.max_r by lia; cbn; lia].
      apply Z.div_small. split; [lia|].
      assert (2 ^ dig <= 2 ^ k1) by (apply Z.pow_le_mono_r; lia). lia. }
  assert (Hd1 : Zdigits2 m1 <= t + 1).
  { apply Zdigits2_le; [|lia]. split; [lia|].
    rewrite Z.pow_add_r by lia. change (2 ^ 1) with 2. lia. }
  split; [unfold t, n2, k2, n1, k1, G in *; lia|].
  replace (e'' - ez) with (k1 + k2) by lia.
  rewrite Z.pow_add_r by lia.
  set (A := 2 ^ k1) in *. set (B := 2 ^ k2) in *.
  apply Z.abs_le. split; nia.
Qed.

Lemma pow2_pos (e : Z) : (0 < B64.pow2 e)%Q.
Proof. apply Qpower_0_lt. reflexivity. Qed.

Lemma pow2_add (a b : Z) : (B64.pow2 (a + b) == B64.pow2 a * B64.pow2 b)%Q.
Proof. apply Qpower_plus. discriminate. Qed.

Lemma pow2_Z (k : Z) : 0 <= k → (inject_Z (2 ^ k) == B64.pow2 k)%Q.
Proof. intros Hk. by rewrite Zpower_Qpower. Qed.

Lemma pow2_le (a b : Z) : a <= b → (B64.pow2 a <= B64.pow2 b)%Q.
Proof. intros H. apply Qpower_le_compat_l; [done|discriminate]. Qed.

Lemma pow2_le_inv (a b : Z) : (B64.pow2 a <= B64.pow2 b)%Q → a <= b.
Proof. intros H. eapply Qpower_le_compat_l_inv; [exact H|reflexivity]. Qed.

Lemma dyadic_shift (m e k : Z) :
  0 <= k → (B64.dyadic (m * 2 ^ k) e == B64.dyadic m (e + k))%Q.
Proof.
  intros Hk. unfold B64.dyadic.
  rewrite inject_Z_mult, pow2_Z, pow2_add by done. ring.
Qed.

Lemma Zabs_Qabs (a b c : Z) :
  Z.abs (a - b) <= c → (Qabs (inject_Z a - inject_Z b) <= inject_Z c)%Q.
Proof.
  intros H. apply Qabs_Qle_condition.
  rewrite <- inject_Z_opp. unfold Qminus. rewrite <- inject_Z_opp, <- inject_Z_plus.
  rewrite <- !Zle_Qle. lia.
Qed.

Lemma pos_iter_xO (m d : positive) :
  Zpos (Pos.iter xO m d) = Zpos m * 2 ^ Zpos d.
Proof.
  induction d as [|d IH] using Pos.peano_ind.
  - cbn [Pos.iter]. rewrite (Pos2Z.inj_xO m). change (2 ^ 1) with 2. lia.
  - rewrite Pos.iter_succ, (Pos2Z.inj_xO (Pos.iter xO m d)), IH, Pos2Z.inj_succ.
    rewrite Z.pow_succ_r by lia. lia.
Qed.

Lemma shl_align_spec (mx : positive) (ex ex' : Z) :
  snd (shl_align mx ex ex') = Z.min ex ex'
  ∧ Zpos (fst (shl_align mx ex ex'))
    = Zpos mx * 2 ^ (ex - Z.min ex ex').
Proof.
  unfold shl_align. destruct (ex' - ex) as [|d|d] eqn:E; cbn [fst snd].
  - rewrite Z.min_l by lia. rewrite Z.sub_diag. cbn. lia.
  - rewrite Z.min_l by lia. rewrite Z.sub_diag. cbn. lia.
  - rewrite Z.min_r by lia. rewrite pos_iter_xO.
    split; [done|]. do 2 f_equal. lia.
Qed.

Lemma digits_dyadic_lower (m : positive) (e : Z) :
  (B64.pow2 (Zpos (digits2_pos m) + e - 1) <= B64.dyadic (Zpos m) e)%Q.
Proof.
  pose proof (digits2_pos_bounds m) as [Hlo _].
  replace (Zpos (digits2_pos m) + e - 1) with ((Zpos (digits2_pos m) - 1) + e) by lia.
  rewrite pow2_add. unfold B64.dyadic.
  apply Qmult_le_compat_r; [|apply Qlt_le_weak, pow2_pos].
  rewrite <- pow2_Z by lia. by rewrite <- Zle_Qle.
Qed.

(** Rounding a positive mantissa: a coarse error bound. *)
Lemma binary_round_crude (sx : bool) (mx : positive) (ex K : Z) :
  (B64.dyadic (Zpos mx) ex <= B64.pow2 K)%Q →
  ∃ m2 e2,
    binary_round 53 1024 sx mx ex = B64.rounded sx m2 e2
    ∧ 0 <= m2
    ∧ e2 <= Z.max (K - 51) (-1074)
    ∧ (Qabs (B64.dyadic m2 e2 - B64.dyadic (Zpos mx) ex) <= B64.pow2 e2)%Q.
Proof.
  intros HX. unfold binary_round. rewrite fexp_64.
  pose proof (shl_align_spec mx ex (Z.max (Zpos (digits2_pos mx) + ex - 53) (-1074)))
    as [Hez Hmz].
  destruct (shl_align _ _ _) as [mz ez]. cbn [fst snd] in Hez, Hmz.
  destruct (binary_round_aux_bound sx (Zpos mz) ez loc_Exact ltac:(lia))
    as (m2 & e2 & Hr & Hm2 & [Hlo Hhi] & Herr).
  cbn [Zdigits2] in Hhi.
  exists m2, e2. split; [done|]. split; [done|].
  assert (Hval : (B64.dyadic (Zpos mz) ez == B64.dyadic (Zpos mx) ex)%Q).
  { rewrite Hmz, dyadic_shift by lia. f_equiv. lia. }
  assert (HG : Zpos (digits2_pos mx) + ex - 1 <= K).
  { apply pow2_le_inv. eapply Qle_trans; [apply digits_dyadic_lower|done]. }
  assert (HG' : Zpos (digits2_pos mz) + ez - 1 <= K).
  { apply pow2_le_inv. eapply Qle_trans; [apply digits_dyadic_lower|]. by rewrite Hval. }
  split; [lia|].
  rewrite <- Hval.
  apply Zabs_Qabs in Herr.
  assert (E1 : (B64.dyadic m2 e2 == B64.dyadic (m2 * 2 ^ (e2 - ez)) ez)%Q).
  { rewrite dyadic_shift by lia. by replace (ez + (e2 - ez)) with e2 by lia. }
  assert (E2 : (B64.pow2 e2 == inject_Z (2 ^ (e2 - ez)) * B64.pow2 ez)%Q).
  { rewrite pow2_Z, <- pow2_add by lia.
    by replace (e2 - ez + ez) with e2 by lia. }
  rewrite E1, E2.
  unfold B64.dyadic. unfold B64.dyadic in Herr.
  assert (E3 : (inject_Z (m2 * 2 ^ (e2 - ez)) * B64.pow2 ez
                - inject_Z (Zpos mz) * B64.pow2 ez
                == (inject_Z (m2 * 2 ^ (e2 - ez)) - inject_Z (Zpos mz)) * B64.pow2 ez)%Q)
    by ring.
  rewrite E3, Qabs_Qmult, (Qabs_pos (B64.pow2 ez)) by apply Qlt_le_weak, pow2_pos.
  apply Qmult_le_compat_r; [done|apply Qlt_le_weak, pow2_pos].
Qed.


Lemma to_Q_finite (s : bool) (m : positive) (e : Z) :
  (B64.to_Q (S754_finite s m e) == B64.dyadic (cond_Zopp s (Zpos m)) e)%Q.
Proof.
  unfold B64.to_Q, B64.exact, B64.dyadic.
  replace (if s then Zneg m else Zpos m) with (cond_Zopp s (Zpos m))
    by (by destruct s).
  destruct (Z.leb_spec 0 e) as [He|He]; cbv beta iota.
  - change (Z.to_pos 1) with 1%positive.
    change (?a # 1)%Q with (inject_Z a).
    rewrite inject_Z_mult, pow2_Z by done. reflexivity.
  - assert (Hp : 0 < 2 ^ (- e)) by (apply Z.pow_pos_nonneg; lia).
    rewrite Qmake_Qdiv, Z2Pos.id, pow2_Z by lia.
    unfold B64.pow2. rewrite Qpower_opp. unfold Qdiv.
    rewrite Qinv_involutive. reflexivity.
Qed.

Lemma to_Q_zero (s : bool) : (B64.to_Q (S754_zero s) == 0)%Q.
Proof. reflexivity. Qed.

Lemma dyadic_0 (e : Z) : (B64.dyadic 0 e == 0)%Q.
Proof. unfold B64.dyadic. ring. Qed.

Lemma dyadic_opp (m e : Z) : (B64.dyadic (- m) e == - B64.dyadic m e)%Q.
Proof. unfold B64.dyadic. rewrite inject_Z_opp. ring. Qed.

Lemma rounded_value (sx : bool) (m2 e2 : Z) :
  0 <= m2 → e2 <= 971 →
  B64.is_finite (B64.rounded sx m2 e2) = true
  ∧ (B64.to_Q (B64.rounded sx m2 e2) == B64.dyadic (cond_Zopp sx m2) e2)%Q.
Proof.
  intros Hm He. unfold B64.rounded. destruct m2 as [|p|p]; [| |lia].
  - split; [done|]. rewrite to_Q_zero. destruct sx; cbn; by rewrite dyadic_0.
  - change (B64.emax - B64.prec) with 971. destruct (Z.leb_spec e2 971); [|lia].
    split; [done|]. apply to_Q_finite.
Qed.

Lemma Qabs_opp_sub (a b : Q) : (Qabs (- a - - b) == Qabs (a - b))%Q.
Proof.
  assert (E : (- a - - b == - (a - b))%Q) by ring.
  rewrite E. apply Qabs_opp.
Qed.

(** [binary_normalize]: finiteness and the error of the rounding. *)
Lemma binary_normalize_crude (D ez K : Z) (szero : bool) :
  (Qabs (B64.dyadic D ez) <= B64.pow2 K)%Q → K <= 1022 →
  B64.is_finite (binary_normalize 53 1024 D ez szero) = true
  ∧ (Qabs (B64.to_Q (binary_normalize 53 1024 D ez szero) - B64.dyadic D ez)
     <= B64.pow2 (Z.max (K - 51) (-1074)))%Q.
Proof.
  intros HK Hk. unfold binary_normalize. destruct D as [|p|p].
  - split; [done|]. rewrite to_Q_zero, dyadic_0. cbn.
    apply Qlt_le_weak, pow2_pos.
  - rewrite Qabs_pos in HK.
    2:{ unfold B64.dyadic. apply Qmult_le_0_compat; [done|apply Qlt_le_weak, pow2_pos]. }
    destruct (binary_round_crude false p ez K HK) as (m2 & e2 & -> & Hm & He & Herr).
    destruct (rounded_value false m2 e2) as [Hf Hv]; [lia|lia|].
    split; [done|]. rewrite Hv. cbn [cond_Zopp].
    eapply Qle_trans; [exact Herr|]. by apply pow2_le.
  - change (Zneg p) with (- Zpos p) in *. rewrite dyadic_opp in *.
    rewrite Qabs_opp, Qabs_pos in HK.
    2:{ unfold B64.dyadic. apply Qmult_le_0_compat; [done|apply Qlt_le_weak, pow2_pos]. }
    destruct (binary_round_crude true p ez K HK) as (m2 & e2 & -> & Hm & He & Herr).
    destruct (rounded_value true m2 e2) as [Hf Hv]; [lia|lia|].
    split; [done|]. rewrite Hv. cbn [cond_Zopp]. rewrite dyadic_opp, Qabs_opp_sub.
    eapply Qle_trans; [exact Herr|]. by apply pow2_le.
Qed.

Lemma shl_align_value (sx : bool) (mx : positive) (ex ez : Z) :
  ez <= ex →
  (B64.dyadic (cond_Zopp sx (Zpos (fst (shl_align mx ex ez)))) ez
   == B64.dyadic (cond_Zopp sx (Zpos mx)) ex)%Q.
Proof.
  intros H. destruct (shl_align_spec mx ex ez) as [_ ->].
  rewrite Z.min_r by lia.
  assert (E : cond_Zopp sx (Zpos mx * 2 ^ (ex - ez))
              = cond_Zopp sx (Zpos mx) * 2 ^ (ex - ez)) by (destruct sx; cbn; lia).
  rewrite E, dyadic_shift by lia. by replace (ez + (ex - ez)) with ex by lia.
Qed.

(** Subtraction: the result is finite and close to the exact difference. *)
Lemma sub_crude (x y : spec_float) (K : Z) :
  B64.is_finite x = true → B64.is_finite y = true →
  (Qabs (B64.to_Q x - B64.to_Q y) <= B64.pow2 K)%Q → K <= 1022 →
  B64.is_finite (B64.sub x y) = true
  ∧ (Qabs (B64.to_Q (B64.sub x y) - (B64.to_Q x - B64.to_Q y))
     <= B64.pow2 (Z.max (K - 51) (-1074)))%Q.
Proof.
  intros Hx Hy HK Hk.
  assert (Hexact : ∀ r, (B64.to_Q r == B64.to_Q x - B64.to_Q y)%Q →
    (Qabs (B64.to_Q r - (B64.to_Q x - B64.to_Q y))
     <= B64.pow2 (Z.max (K - 51) (-1074)))%Q).
  { intros r ->. 
    assert (E : (B64.to_Q x - B64.to_Q y - (B64.to_Q x - B64.to_Q y) == 0)%Q) by ring.
    rewrite E. cbn. apply Qlt_le_weak, pow2_pos. }
  destruct x as [sx|sx| |sx mx ex], y as [sy|sy| |sy my ey]; try done.
  - split; [by destruct sx, sy|]. apply Hexact.
    destruct sx, sy; reflexivity.
  - split; [done|]. apply Hexact. cbn [B64.sub SFsub].
    rewrite !to_Q_finite, to_Q_zero.
    destruct sy; cbn [negb cond_Zopp].
    + change (Zneg my) with (- Zpos my). rewrite dyadic_opp. ring.
    + change (Zneg my) with (- Zpos my). rewrite dyadic_opp. ring.
  - split; [done|]. apply Hexact. cbn [B64.sub SFsub].
    rewrite to_Q_zero. ring.
  - change (B64.sub (S754_finite sx mx ex) (S754_finite sy my ey))
      with (binary_normalize 53 1024
              (cond_Zopp sx (Zpos (fst (shl_align mx ex (Z.min ex ey))))
               - cond_Zopp sy (Zpos (fst (shl_align my ey (Z.min ex ey)))))
              (Z.min ex ey) false).
    set (ez := Z.min ex ey). set (D := _ - _).
    assert (HD : (B64.dyadic D ez == B64.to_Q (S754_finite sx mx ex)
                               - B64.to_Q (S754_finite sy my ey))%Q).
    { rewrite !to_Q_finite.
      rewrite <- (shl_align_value sx mx ex ez), <- (shl_align_value sy my ey ez)
        by (unfold ez; lia).
      unfold D, B64.dyadic. unfold Zminus. rewrite inject_Z_plus, inject_Z_opp. ring. }
    rewrite <- HD in *. by apply binary_normalize_crude.
Qed.


(** Division of integers: finite for numerators below 2^1000. *)
Lemma of_ratio_finite (a b : Z) :
  b ≠ 0 → Z.abs a < 2 ^ 1000 → B64.is_finite (B64.of_ratio a b) = true.
Proof.
  intros Hb Ha. unfold B64.of_ratio.
  destruct a as [|pa|pa]; [by destruct b| |].
  all: destruct b as [|pb|pb]; [done| |].
  all: unfold B64.raw_of_Z, B64.div, SFdiv.
  all: unfold SFdiv_core_binary.
  all: set (e' := Z.min _ _); set (s := 0 - 0 - e').
  all: set (m' := match s with Zpos _ => _ | Z0 => _ | Zneg _ => _ end).
  all: pose proof (Z_div_mod m' (Zpos pb) ltac:(lia)) as Hdm.
  all: destruct (Z.div_eucl m' (Zpos pb)) as [q r].
  all: assert (He' : e' <= 0) by (unfold e'; lia).
  all: assert (Hm' : m' = Zpos pa * 2 ^ s).
  all: try (unfold m'; destruct s as [|ps|ps] eqn:Es; [lia|by rewrite Z.shiftl_mul_pow2|lia]).
  all: assert (H2s : 0 < 2 ^ s) by (apply Z.pow_pos_nonneg; lia).
  all: assert (Hq : 0 <= q < 2 ^ (1000 + s)).
  all: try (rewrite Z.pow_add_r by lia; split; nia).
  all: change B64.prec with 53; change B64.emax with 1024.
  all: match goal with
       | |- context [binary_round_aux _ _ ?sg ?q0 ?e0 ?l] =>
           destruct (binary_round_aux_bound sg q0 e0 l)
             as (m2 & e2 & -> & Hm2 & [_ He2] & _); [lia|]
       end.
  all: pose proof (Zdigits2_le q (1000 + s) Hq ltac:(lia)) as [_ Hd].
  all: unfold B64.rounded; destruct m2 as [|p2|p2]; [done| |lia].
  all: change (B64.emax - B64.prec) with 971.
  all: destruct (Z.leb_spec e2 971); [done|].
  all: unfold e', s in *; lia.
Qed.

(** Conversion of integers: finite up to 2^1000. *)
Lemma of_Z_finite (z : Z) :
  Z.abs z <= 2 ^ 1000 → B64.is_finite (B64.of_Z z) = true.
Proof.
  intros Hz. apply (binary_normalize_crude z 0 1000 false); [|lia].
  unfold B64.dyadic. change (B64.pow2 0) with 1%Q. rewrite Qmult_1_r.
  rewrite <- pow2_Z by lia.
  apply Qabs_Qle_condition. rewrite <- inject_Z_opp, <- !Zle_Qle. lia.
Qed.

Lemma rne_div_bounds (a d : Z) :
  0 < d → 2 * Z.abs (B64.rne_div a d * d - a) <= d.
Proof.
  intros Hd. unfold B64.rne_div.
  pose proof (Z.div_mod a d ltac:(lia)) as Ha.
  pose proof (Z.mod_pos_bound a d Hd) as Hr.
  set (q := a / d) in *. set (r := a mod d) in *.
  destruct (Z.compare_spec (2 * r) d); [destruct (Z.even q)| |]; nia.
Qed.

Lemma rne_div_Q (a d : Z) :
  0 < d →
  (Qabs (inject_Z (B64.rne_div a d) - inject_Z a / inject_Z d) <= 1 # 2)%Q.
Proof.
  intros Hd. pose proof (rne_div_bounds a d Hd) as H.
  set (R := B64.rne_div a d) in *.
  assert (HdQ : (0 < inject_Z d)%Q) by (by rewrite Zlt_Qlt in Hd).
  assert (Hlo : - d <= 2 * (R * d - a)) by lia.
  assert (Hhi : 2 * (R * d - a) <= d) by lia.
  rewrite Zle_Qle in Hlo, Hhi. unfold Zminus in Hlo, Hhi.
  rewrite !inject_Z_mult, !inject_Z_plus, !inject_Z_mult in Hlo, Hhi.
  rewrite (inject_Z_opp a) in Hlo, Hhi. rewrite (inject_Z_opp d) in Hlo.
  change (inject_Z 2) with 2%Q in *.
  assert (E : ((inject_Z R - inject_Z a / inject_Z d) * inject_Z d
               == inject_Z R * inject_Z d - inject_Z a)%Q).
  { field. intros E0. rewrite E0 in HdQ. discriminate. }
  set (u := (inject_Z R * inject_Z d)%Q) in *.
  apply Qabs_Qle_condition. split.
  - apply (Qmult_le_r _ _ (inject_Z d)); [done|]. rewrite E. clear E. clearbody u. lra.
  - apply (Qmult_le_r _ _ (inject_Z d)); [done|]. rewrite E. clear E. clearbody u. lra.
Qed.

Lemma exact_den_pos (f : spec_float) : 0 < (B64.exact f).2.
Proof.
  unfold B64.exact. destruct f as [| | |s m e]; cbn [snd]; try lia.
  destruct (Z.leb_spec 0 e); cbn [snd]; [lia|]. apply Z.pow_pos_nonneg; lia.
Qed.

Lemma to_Q_exact (f : spec_float) :
  (B64.to_Q f == inject_Z (B64.exact f).1 / inject_Z (B64.exact f).2)%Q.
Proof.
  unfold B64.to_Q. pose proof (exact_den_pos f) as Hd.
  destruct (B64.exact f) as [n d]. cbn [fst snd] in *.
  rewrite Qmake_Qdiv, Z2Pos.id by done. reflexivity.
Qed.

(** The number of tenths is within one half of ten times the value. *)
Lemma scaled_1_Q (f : spec_float) :
  (Qabs (inject_Z (B64.scaled f 1) - 10 * B64.to_Q f) <= 1 # 2)%Q.
Proof.
  rewrite to_Q_exact. unfold B64.scaled.
  pose proof (exact_den_pos f) as Hd.
  destruct (B64.exact f) as [n d]. cbn [fst snd] in *.
  pose proof (rne_div_Q (n * 10 ^ 1) d Hd) as H.
  assert (E : (10 * (inject_Z n / inject_Z d)
               == inject_Z (n * 10 ^ 1) / inject_Z d)%Q).
  { rewrite inject_Z_mult. change (inject_Z (10 ^ 1)) with 10%Q.
    field. intros E0. rewrite Zlt_Qlt, E0 in Hd. discriminate. }
  by rewrite E.
Qed.

Lemma to_Q_100 : (B64.to_Q (B64.of_Z 100) == 100)%Q.
Proof. vm_compute. reflexivity. Qed.

Lemma pow2_m11 : (B64.pow2 (-11) == 1 # 2048)%Q.
Proof. reflexivity. Qed.

Lemma pow2_40 : (B64.pow2 40 == 1099511627776)%Q.
Proof. reflexivity. Qed.

(** For a probability of magnitude at most 10^12, the tenths of the two
    B64.rounded probabilities sum to 1000 within 1. *)
Lemma tenths_sum_float (f : spec_float) :
  B64.is_finite f = true →
  (- (1000000000000) <= B64.to_Q f <= 1000000000000)%Q →
  B64.is_finite (B64.sub (B64.of_Z 100) f) = true
  ∧ Z.abs (B64.scaled f 1 + B64.scaled (B64.sub (B64.of_Z 100) f) 1 - 1000) <= 1.
Proof.
  intros Hf [Hlo Hhi].
  destruct (sub_crude (B64.of_Z 100) f 40) as [Hfin Herr]; [done|done| |lia|].
  { rewrite to_Q_100, pow2_40. apply Qabs_Qle_condition. split; lra. }
  split; [done|].
  change (Z.max (40 - 51) (-1074)) with (-11) in Herr.
  rewrite to_Q_100, pow2_m11 in Herr.
  pose proof (scaled_1_Q f) as H1.
  pose proof (scaled_1_Q (B64.sub (B64.of_Z 100) f)) as H2.
  set (q := B64.sub (B64.of_Z 100) f) in *.
  set (k1 := B64.scaled f 1) in *. set (k2 := B64.scaled q 1) in *.
  apply Qabs_Qle_condition in Herr, H1, H2.
  assert (Hs : (- 2 < inject_Z (k1 + k2 - 1000) < 2)%Q).
  { unfold Zminus. rewrite !inject_Z_plus, inject_Z_opp.
    change (inject_Z 1000) with 1000%Q. split; lra. }
  destruct Hs as [Hs1 Hs2].
  change (-2)%Q with (inject_Z (-2)) in Hs1. change 2%Q with (inject_Z 2) in Hs2.
  rewrite <- Zlt_Qlt in Hs1, Hs2. lia.
Qed.

End B64Facts.

(** ** Derived metrics *)

Module MetricFacts.
Import Afcon.
Local Open Scope Z_scope.

Lemma to_float_int_100 : Num.to_float (NInt 100) = Return (B64.of_Z 100).
Proof. vm_compute. reflexivity. Qed.

(** True division of integers raises [ZeroDivisionError] only for a zero
    divisor. *)
Lemma truediv_int_raise (x y : Z) (e : exn) :
  y ≠ 0 → Num.truediv (NInt x) (NInt y) = Raise e → e = OverflowError.
Proof.
  intros Hy. unfold Num.truediv.
  destruct (Z.eqb_spec y 0) as [->|_]; [done|].
  destruct (B64.is_finite _); congruence.
Qed.

Lemma truediv_int_float (x y : Z) (q : num) :
  Num.truediv (NInt x) (NInt y) = Return q → ∃ f, q = NFloat f.
Proof.
  unfold Num.truediv. destruct (y =? 0); [discriminate|].
  destruct (B64.is_finite _); [|discriminate]. intros [= <-]. eauto.
Qed.

Lemma avg_goals_raise (t : TeamStats) (e : exn) :
  avg_goals_per_match t = Raise e → e = OverflowError.
Proof.
  unfold avg_goals_per_match.
  destruct (Z.eqb_spec (matches_played t) 0) as [|Hne]; [discriminate|].
  intros [H|(q & _ & H)]%bind_Raise; [|discriminate].
  by eapply truediv_int_raise.
Qed.

Lemma defense_raise (t : TeamStats) (e : exn) :
  defense_strength t = Raise e → e = OverflowError.
Proof.
  unfold defense_strength.
  destruct (Z.eqb_spec (matches_played t) 0) as [|Hne]; [discriminate|].
  intros [H|(q & _ & H)]%bind_Raise; [|discriminate].
  by eapply truediv_int_raise.
Qed.

Lemma win_percentage_raise (t : TeamStats) (e : exn) :
  win_percentage t = Raise e → e = OverflowError.
Proof.
  unfold win_percentage.
  destruct (Z.eqb_spec (matches_played t) 0) as [|Hne]; [discriminate|].
  intros [H|(q & Hq & H)]%bind_Raise; [by eapply truediv_int_raise|].
  apply truediv_int_float in Hq as [f ->].
  apply bind_Raise in H as [H|(p & _ & H)]; [|discriminate].
  unfold Num.mul, Num.arith in H. rewrite to_float_int_100 in H.
  discriminate.
Qed.

(** *** No overflow within the float range *)

Lemma to_float_returns (z : Z) :
  Z.abs z <= 2 ^ 1000 → Num.to_float (NInt z) = Return (B64.of_Z z).
Proof.
  intros Hz. unfold Num.to_float. by rewrite B64Facts.of_Z_finite.
Qed.

Lemma truediv_int_returns (x y : Z) :
  y ≠ 0 → Z.abs x < 2 ^ 1000 →
  Num.truediv (NInt x) (NInt y) = Return (NFloat (B64.of_ratio x y)).
Proof.
  intros Hy Hx. unfold Num.truediv.
  destruct (Z.eqb_spec y 0); [done|].
  by rewrite B64Facts.of_ratio_finite.
Qed.

Lemma arith_int_float iop fop (z : Z) (f : spec_float) :
  Z.abs z <= 2 ^ 1000 →
  Num.arith iop fop (NInt z) (NFloat f) = Return (NFloat (fop (B64.of_Z z) f)).
Proof. intros Hz. unfold Num.arith. by rewrite to_float_returns. Qed.

Lemma arith_float_int iop fop (f : spec_float) (z : Z) :
  Z.abs z <= 2 ^ 1000 →
  Num.arith iop fop (NFloat f) (NInt z) = Return (NFloat (fop f (B64.of_Z z))).
Proof. intros Hz. unfold Num.arith. by rewrite to_float_returns. Qed.

Lemma arith_float_float iop fop (f g : spec_float) :
  Num.arith iop fop (NFloat f) (NFloat g) = Return (NFloat (fop f g)).
Proof. reflexivity. Qed.

Lemma arith_int_int iop fop (x y : Z) :
  Num.arith iop fop (NInt x) (NInt y) = Return (NInt (iop x y)).
Proof. reflexivity. Qed.

Ltac arith_steps :=
  unfold Num.add, Num.sub, Num.mul;
  repeat first
    [ rewrite bind_ret_l
    | rewrite arith_int_int
    | rewrite arith_float_float
    | rewrite arith_int_float by lia
    | rewrite arith_float_int by lia ].

Lemma avg_goals_returns (t : TeamStats) :
  in_float_range t → ∃ g, avg_goals_per_match t = Return g ∧ zero_or_float g.
Proof.
  intros (_ & _ & Hg & _). unfold avg_goals_per_match.
  destruct (Z.eqb_spec (matches_played t) 0); [eexists; split; [done|by left]|].
  rewrite truediv_int_returns by done. eexists. split; [done|]. right. eauto.
Qed.

Lemma defense_returns (t : TeamStats) :
  in_float_range t → ∃ g, defense_strength t = Return g ∧ zero_or_float g.
Proof.
  intros (_ & _ & _ & Hg). unfold defense_strength.
  destruct (Z.eqb_spec (matches_played t) 0); [eexists; split; [done|by left]|].
  rewrite truediv_int_returns by done. eexists. split; [done|]. right. eauto.
Qed.

Lemma win_percentage_returns (t : TeamStats) :
  in_float_range t → ∃ g, win_percentage t = Return g.
Proof.
  intros (_ & Hw & _). unfold win_percentage.
  destruct (Z.eqb_spec (matches_played t) 0); [eauto|].
  rewrite truediv_int_returns by done. arith_steps. eauto.
Qed.

(** The conversion of an integer to text returns its numeral, or raises
    [ValueError]; it returns for an integer within the limit. *)
Lemma str_int_limit_cases (z : Z) :
  Repr.str_int_limit z = Return (Repr.str_int z)
  ∨ Repr.str_int_limit z = Raise ValueError.
Proof.
  unfold Repr.str_int_limit.
  destruct (10 ^ Repr.max_str_digits <=? Z.abs z); auto.
Qed.

Lemma str_int_limit_fits (z : Z) :
  Repr.fits z → Repr.str_int_limit z = Return (Repr.str_int z).
Proof.
  unfold Repr.str_int_limit, Repr.fits. intros H.
  destruct (Z.leb_spec (10 ^ Repr.max_str_digits) (Z.abs z)); [lia|done].
Qed.

Lemma str_int_limit_raise (z : Z) (e : exn) :
  Repr.str_int_limit z = Raise e → e = ValueError ∧ ¬ Repr.fits z.
Proof.
  unfold Repr.str_int_limit, Repr.fits.
  destruct (Z.leb_spec (10 ^ Repr.max_str_digits) (Z.abs z)); [|done].
  intros [= <-]. split; [done|lia].
Qed.

(** C5: a team that has played no match has average goals per match, win
    percentage and defence strength all equal to the integer 0, each
    property returning normally; and whatever the record, none of the three
    ever raises [ZeroDivisionError]. *)
Theorem zero_matches_metrics (t : TeamStats) :
  matches_played t = 0 →
  avg_goals_per_match t = Return (NInt 0)
  ∧ win_percentage t = Return (NInt 0)
  ∧ defense_strength t = Return (NInt 0)
  ∧ ∀ t' : TeamStats,
      avg_goals_per_match t' ≠ Raise ZeroDivisionError
      ∧ win_percentage t' ≠ Raise ZeroDivisionError
      ∧ defense_strength t' ≠ Raise ZeroDivisionError.
Proof.
  intros H.
  unfold avg_goals_per_match, win_percentage, defense_strength.
  rewrite H. cbn. repeat split; try reflexivity.
  - intros E. by apply avg_goals_raise in E.
  - intros E. by apply win_percentage_raise in E.
  - intros E. by apply defense_raise in E.
Qed.

Lemma zero_matches_metrics_witness :
  matches_played mozambique = 0
  ∧ avg_goals_per_match mozambique = Return (NInt 0)
  ∧ win_percentage mozambique = Return (NInt 0)
  ∧ defense_strength mozambique = Return (NInt 0).
Proof.
  split; [reflexivity|].
  destruct (zero_matches_metrics mozambique) as (H1 & H2 & H3 & _);
    [reflexivity|].
  auto.
Defined.

End MetricFacts.

(** ** Head-to-head comparison and lookup misses *)

Module CompareFacts.
Import Afcon MetricFacts.
Local Open Scope Z_scope.


Lemma dict2_lookup_2 {V} (a b : string) (x y : V) : dict2 a x b y !! b = Some y.
Proof. unfold dict2. apply lookup_insert_eq. Qed.

Lemma dict2_lookup_1 {V} (a b : string) (x y : V) :
  a ≠ b → dict2 a x b y !! a = Some x.
Proof.
  intros H. unfold dict2. rewrite lookup_insert_ne by done.
  apply lookup_insert_eq.
Qed.

Lemma dict2_lookup_other {V} (a b c : string) (x y : V) :
  c ≠ a → c ≠ b → dict2 a x b y !! c = None.
Proof.
  intros Ha Hb. unfold dict2. by rewrite !lookup_insert_ne, lookup_empty.
Qed.

(** Case analysis on a metric: it returns, or raises [OverflowError]. *)
Ltac metric_case m lem :=
  idtac;
  let e := fresh "e" in
  let E := fresh "E" in
  destruct m as [e|?] eqn:E; [apply lem in E; subst e|].

Ltac metric_cases t :=
  metric_case (avg_goals_per_match t) avg_goals_raise;
  metric_case (defense_strength t) defense_raise;
  metric_case (win_percentage t) win_percentage_raise.


(** Case analysis on the conversion of a match count to text. *)
Ltac count_case t :=
  destruct (str_int_limit_cases (matches_played t)) as [->| ->].



(** C7: [compare_teams] and [predict_outcome] return the dictionary with
    the ["error"] entry, and raise nothing, as soon as one of the two names
    is missing from the mapping; and they return that dictionary only
    then. *)
Theorem lookup_miss_error (self : AFCONAnalyzer) (a b : string) :
  (get_team self a = None ∨ get_team self b = None →
     compare_teams self a b
       = Return (CompareError "One or both teams not found")
     ∧ predict_outcome self a b
       = Return (PredictError "One or both teams not found"))
  ∧ ((∃ msg, compare_teams self a b = Return (CompareError msg))
       ↔ get_team self a = None ∨ get_team self b = None)
  ∧ ((∃ msg, predict_outcome self a b = Return (PredictError msg))
       ↔ get_team self a = None ∨ get_team self b = None).
Proof.
  unfold compare_teams, predict_outcome.
  destruct (get_team self a) as [t1|], (get_team self b) as [t2|].
  2-4: by (split; [|split; split]; eauto).
  split; [intros [?|?]; discriminate|].
  split; (split; [|intros [?|?]; discriminate]).
  - intros (msg & Hm). exfalso.
    metric_cases t1; metric_cases t2; cbn in Hm; try discriminate.
    revert Hm. count_case t1; count_case t2; cbn; discriminate.
  - intros (msg & Hm). exfalso.
    destruct (win_probs t1 t2) as [e|[p1 p2]]; cbn in Hm; [discriminate|].
    destruct (avg_goals_per_match t1), (avg_goals_per_match t2);
      cbn in Hm; discriminate.
Qed.

Lemma lookup_miss_error_witness :
  compare_teams main_analyzer "Ivory Coast" "Senegal"
    = Return (CompareError "One or both teams not found")
  ∧ predict_outcome main_analyzer "Senegal" "Gabon"
    = Return (PredictError "One or both teams not found").
Proof.
  split.
  - apply (lookup_miss_error main_analyzer "Ivory Coast" "Senegal").
    right. reflexivity.
  - apply (lookup_miss_error main_analyzer "Senegal" "Gabon").
    left. reflexivity.
Defined.

End CompareFacts.

(** ** Group standings *)

Module RankingFacts.
Import Afcon.
Local Open Scope Z_scope.

Lemma key_ltb_asym (a b : Z * Z) : key_ltb a b = true → key_ltb b a = false.
Proof.
  unfold key_ltb. destruct a as [a1 a2], b as [b1 b2]; cbn.
  rewrite orb_true_iff, andb_true_iff, orb_false_iff, andb_false_iff.
  rewrite !Z.ltb_lt, Z.eqb_eq, !Z.ltb_ge, Z.eqb_neq. lia.
Qed.

Lemma key_ltb_irrefl (a : Z * Z) : key_ltb a a = false.
Proof.
  unfold key_ltb. rewrite orb_false_iff, andb_false_iff, !Z.ltb_ge. lia.
Qed.

Lemma key_ltb_false (a b : Z * Z) :
  key_ltb a b = false ↔ a.1 > b.1 ∨ (a.1 = b.1 ∧ a.2 >= b.2).
Proof.
  unfold key_ltb.
  rewrite orb_false_iff, andb_false_iff, !Z.ltb_ge, Z.eqb_neq. lia.
Qed.

Section Sorting.
Context {A : Type} (key : A → Z * Z).

Lemma insert_desc_perm (x : A) (l : list A) :
  Permutation (insert_desc key x l) (x :: l).
Proof.
  induction l as [|y l IH]; cbn; [done|].
  destruct (key_ltb (key x) (key y)); [|done].
  rewrite IH. apply perm_swap.
Qed.

Lemma sorted_reverse_perm (l : list A) : Permutation (sorted_reverse key l) l.
Proof.
  induction l as [|x l IH]; cbn; [done|].
  rewrite insert_desc_perm. by constructor.
Qed.

Lemma insert_desc_hd (x y : A) (l : list A) :
  not_below key y x → HdRel (not_below key) y l →
  HdRel (not_below key) y (insert_desc key x l).
Proof.
  intros Hyx Hl. destruct l as [|z l]; cbn.
  - by constructor.
  - destruct (key_ltb (key x) (key z)); constructor; [|done].
    by inversion Hl.
Qed.

Lemma insert_desc_sorted (x : A) (l : list A) :
  Sorted (not_below key) l → Sorted (not_below key) (insert_desc key x l).
Proof.
  induction 1 as [|y l Hs IH Hhd]; cbn.
  - repeat constructor.
  - destruct (key_ltb (key x) (key y)) eqn:E.
    + constructor; [done|].
      apply insert_desc_hd; [|done]. by apply key_ltb_asym.
    + repeat constructor; done.
Qed.

Lemma sorted_reverse_sorted (l : list A) :
  Sorted (not_below key) (sorted_reverse key l).
Proof.
  induction l as [|x l IH]; cbn; [constructor|].
  by apply insert_desc_sorted.
Qed.

(** The sort is stable: the elements of any one key keep their order. *)
Lemma insert_desc_stable (P : A → bool) (x : A) (l : list A) :
  (∀ y, P x = true → P y = true → key y = key x) →
  List.filter P (insert_desc key x l) = List.filter P (x :: l).
Proof.
  intros HP. induction l as [|y l IH]; [done|]. cbn [insert_desc].
  destruct (key_ltb (key x) (key y)) eqn:E; [|done].
  cbn [List.filter] in *. rewrite IH.
  destruct (P x) eqn:Ex, (P y) eqn:Ey; try done.
  rewrite (HP y eq_refl Ey), key_ltb_irrefl in E. discriminate.
Qed.

Lemma sorted_reverse_stable (k : Z * Z) (l : list A) :
  List.filter (λ x, bool_decide (key x = k)) (sorted_reverse key l)
  = List.filter (λ x, bool_decide (key x = k)) l.
Proof.
  induction l as [|x l IH]; [done|]. cbn [sorted_reverse foldr].
  rewrite insert_desc_stable.
  - cbn [List.filter]. fold (sorted_reverse key l). by rewrite IH.
  - intros y Hx Hy. apply bool_decide_eq_true in Hx, Hy. congruence.
Qed.

Lemma sorted_adjacent (l : list A) (i : nat) (x y : A) :
  Sorted (not_below key) l →
  l !! i = Some x → l !! S i = Some y → not_below key x y.
Proof.
  intros Hs. revert i. induction Hs as [|z l Hs IH Hhd]; intros i Hx Hy.
  - done.
  - destruct i as [|i]; cbn in *.
    + injection Hx as ->. destruct l as [|w l]; [done|].
      cbn in Hy. injection Hy as ->. by inversion Hhd.
    + by eapply IH.
Qed.

Lemma enumerate_lookup (l : list A) (start : Z) (i : nat) :
  enumerate l start !! i = (λ x, (start + Z.of_nat i, x)) <$> l !! i.
Proof.
  revert start i. induction l as [|x l IH]; intros start [|i]; cbn; try done.
  - by rewrite Z.add_0_r.
  - rewrite IH. destruct (l !! i); cbn; [|done].
    do 2 f_equal. lia.
Qed.

End Sorting.

(** The fields of the entries, read off the ranked teams. *)
Lemma standings_filter_map {B} (P : standing → bool) (P' : TeamStats → bool)
    (h : standing → B) (h' : TeamStats → B) (l : list TeamStats) (start : Z) :
  (∀ i t, P (standing_of i t) = P' t) →
  (∀ i t, h (standing_of i t) = h' t) →
  map h (List.filter P (map (λ it, standing_of it.1 it.2) (enumerate l start)))
  = map h' (List.filter P' l).
Proof.
  intros HP Hh. revert start.
  induction l as [|t l IH]; intros start; cbn; [done|].
  rewrite HP. destruct (P' t); cbn; by rewrite ?Hh, IH.
Qed.

Lemma standings_map {B} (h : standing → B) (h' : TeamStats → B)
    (l : list TeamStats) (start : Z) :
  (∀ i t, h (standing_of i t) = h' t) →
  map h (map (λ it, standing_of it.1 it.2) (enumerate l start)) = map h' l.
Proof.
  intros Hh. revert start.
  induction l as [|t l IH]; intros start; cbn; [done|]. by rewrite Hh, IH.
Qed.

(** C4: the standings of a group list exactly the teams of the mapping
    carrying that group label: the entries, each read as its name, points,
    matches, wins, draws, losses, goals for, goals against and goal
    difference, are a permutation of these figures of the teams with that
    label (and the entries are built from a permutation of these teams);
    the position of the entry at index [i] is [i + 1], and any two
    adjacent entries are in descending order of points, and of goal
    difference when the points are equal. *)
Theorem analyze_group_sorted (self : AFCONAnalyzer) (g : string) :
  Permutation
    (map (λ s, (st_team s, st_points s, st_matches s, st_wins s, st_draws s,
                st_losses s, st_goals_for s, st_goals_against s,
                st_goal_difference s))
       (analyze_group self g))
    (map (λ t, (name t, points t, matches_played t, wins t, draws t,
                losses t, goals_for t, goals_against t,
                goals_for t - goals_against t))
       (List.filter (λ team, String.eqb (group team) g)
          (dict_values (teams self))))
  ∧ (∃ l : list TeamStats,
      Permutation l
        (List.filter (λ team, String.eqb (group team) g)
           (dict_values (teams self)))
      ∧ (∀ team, In team l ↔
           In team (dict_values (teams self)) ∧ group team = g)
      ∧ analyze_group self g
        = map (λ it, standing_of it.1 it.2) (enumerate l 1))
  ∧ (∀ (i : nat) (s : standing),
       analyze_group self g !! i = Some s → position s = Z.of_nat i + 1)
  ∧ (∀ (i : nat) (s s' : standing),
       analyze_group self g !! i = Some s →
       analyze_group self g !! S i = Some s' →
       st_points s >= st_points s'
       ∧ (st_points s = st_points s' →
          st_goal_difference s >= st_goal_difference s')).
Proof.
  unfold analyze_group.
  set (group_teams := List.filter _ _).
  set (sorted_teams := sorted_reverse sort_key group_teams).
  assert (Hlook : ∀ i s,
    map (λ it, standing_of it.1 it.2) (enumerate sorted_teams 1) !! i = Some s →
    ∃ team, sorted_teams !! i = Some team
            ∧ s = standing_of (1 + Z.of_nat i) team).
  { intros i s. rewrite list_lookup_fmap, enumerate_lookup.
    destruct (sorted_teams !! i) as [team|]; cbn; [|done].
    intros [= <-]. eauto. }
  split; [|split; [|split]].
  - unfold sorted_teams.
    rewrite (standings_map _
               (λ t, (name t, points t, matches_played t, wins t, draws t,
                      losses t, goals_for t, goals_against t,
                      goals_for t - goals_against t))) by done.
    apply Permutation_map, sorted_reverse_perm.
  - exists sorted_teams. split; [apply sorted_reverse_perm|]. split; [|done].
    intros team. unfold sorted_teams. rewrite sorted_reverse_perm.
    unfold group_teams. rewrite filter_In, String.eqb_eq. done.
  - intros i s (team & _ & ->)%Hlook. cbn. lia.
  - intros i s s' (t & Ht & ->)%Hlook (t' & Ht' & ->)%Hlook. cbn.
    pose proof (sorted_adjacent sort_key sorted_teams i t t'
                  (sorted_reverse_sorted _ _) Ht Ht') as Hord.
    apply key_ltb_false in Hord. cbn in Hord. lia.
Qed.

Example analyze_group_main :
  map (λ s, (position s, st_team s, st_points s, st_goal_difference s))
      (analyze_group main_analyzer "A")
  = [(1, "Ivory Coast", 3, 2); (2, "Gabon", 1, 0);
     (3, "Mozambique", 0, 0); (4, "Cameroon", 0, 0)].
Proof. reflexivity. Qed.

End RankingFacts.

(** ** Price trends *)

Module FuelFacts.
Import Fuel.
Local Open Scope Z_scope.

Lemma lit_0_01_value :
  lit_0_01 = S754_finite false 5764607523034235 (-59).
Proof. vm_compute. reflexivity. Qed.

(** A slope cannot be both above 0.01 and below -0.01. *)
Lemma below_not_above (s : spec_float) :
  B64.ltb s (SFopp lit_0_01) = true → B64.ltb lit_0_01 s = false.
Proof.
  rewrite lit_0_01_value. destruct s as [sg|sg| |sg m e]; try done.
  - by destruct sg.
  - by destruct sg.
Qed.

Lemma classify_cases (s : spec_float) :
  (classify s = "UPWARD" ↔ B64.ltb lit_0_01 s = true)
  ∧ (classify s = "DOWNWARD" ↔ B64.ltb s (SFopp lit_0_01) = true)
  ∧ (classify s = "STABLE"
       ↔ B64.ltb lit_0_01 s = false ∧ B64.ltb s (SFopp lit_0_01) = false).
Proof.
  unfold classify. pose proof (below_not_above s) as Hex.
  destruct (B64.ltb lit_0_01 s), (B64.ltb s (SFopp lit_0_01));
    repeat split; try done; try (intros [? ?]; done).
  by specialize (Hex eq_refl).
Qed.

(** C9: whatever the fitted series, the trend recorded for it is UPWARD
    exactly when the fitted slope is above 0.01, DOWNWARD exactly when it
    is below -0.01, and STABLE exactly when it is neither. *)
Theorem trend_by_slope
    (linregress : list spec_float → list spec_float → LinregressResult)
    (prices : list spec_float) :
  let fitted := slope (linregress month_numbers prices) in
  let entry := predict linregress prices in
  fp_slope entry = fitted
  ∧ (trend entry = "UPWARD" ↔ B64.ltb lit_0_01 fitted = true)
  ∧ (trend entry = "DOWNWARD" ↔ B64.ltb fitted (SFopp lit_0_01) = true)
  ∧ (trend entry = "STABLE"
       ↔ B64.ltb lit_0_01 fitted = false
         ∧ B64.ltb fitted (SFopp lit_0_01) = false).
Proof. cbn. split; [reflexivity|]. apply classify_cases. Qed.

(** The binary64 series holds exactly the values of the rational one. *)
Lemma linear_prices_exact :
  Forall2 (λ f q, B64.to_Q f == q)%Q linear_prices Ols.linear_series.
Proof. repeat constructor; vm_compute; reflexivity. Qed.

(** C8: on the twelve-point series [prices[m] = 10 + 0.5 * m] the
    least-squares fit has slope 1/2, intercept 10 and squared correlation
    1, exactly so in rational arithmetic and also when the closed forms are
    evaluated in binary64; the values extrapolated to months 13, 14 and 15
    are [slope * month + intercept], that is 16.5, 17 and 17.5; and when
    [linregress] hands these fitted values to the script, the entry it
    records holds the same predictions, computed as
    [slope * month + intercept] in binary64, and a squared correlation
    of 1. *)
Theorem linear_fit_exact :
  (Ols.fit_slope Ols.months Ols.linear_series == 1 # 2)%Q
  ∧ (Ols.fit_intercept Ols.months Ols.linear_series == 10)%Q
  ∧ (Ols.fit_r_squared Ols.months Ols.linear_series == 1)%Q
  ∧ Forall2 (λ p m,
       p == Ols.fit_slope Ols.months Ols.linear_series * m
            + Ols.fit_intercept Ols.months Ols.linear_series)%Q
      (Ols.extrapolate Ols.months Ols.linear_series Ols.future) Ols.future
  ∧ Forall2 Qeq (Ols.extrapolate Ols.months Ols.linear_series Ols.future)
      [33 # 2; 17; 35 # 2]%Q
  ∧ Ols64.fit_slope month_numbers linear_prices = B64.dec 5 1
  ∧ Ols64.fit_intercept month_numbers linear_prices = B64.of_Z 10
  ∧ Ols64.fit_r_value month_numbers linear_prices = B64.of_Z 1
  ∧ ∀ linregress : list spec_float → list spec_float → LinregressResult,
      let fit := linregress month_numbers linear_prices in
      let entry := predict linregress linear_prices in
      slope fit = B64.dec 5 1 →
      intercept fit = B64.of_Z 10 →
      r_value fit = B64.of_Z 1 →
      r_squared entry = B64.of_Z 1
      ∧ predicted_prices entry
        = map (λ m, B64.add (B64.mul (slope fit) m) (intercept fit))
            future_months
      ∧ predicted_prices entry = [B64.dec 165 1; B64.of_Z 17; B64.dec 175 1].
Proof.
  split; [vm_compute; reflexivity|].
  split; [vm_compute; reflexivity|].
  split; [vm_compute; reflexivity|].
  split; [repeat constructor; vm_compute; reflexivity|].
  split; [repeat constructor; vm_compute; reflexivity|].
  split; [vm_compute; reflexivity|].
  split; [vm_compute; reflexivity|].
  split; [vm_compute; reflexivity|].
  intros linregress fit entry Hs Hi Hr. subst entry. unfold predict.
  fold fit. cbn [r_squared predicted_prices]. rewrite Hs, Hi, Hr.
  split; [vm_compute; reflexivity|].
  split; [reflexivity|]. vm_compute. reflexivity.
Qed.

(** The script run on the linear series with the binary64 fit. *)
Lemma linear_fit_exact_witness :
  predicted_prices (predict Ols64.linregress linear_prices)
  = [B64.dec 165 1; B64.of_Z 17; B64.dec 175 1].
Proof.
  apply (proj2 (proj2 (proj2 (proj2 (proj2 (proj2 (proj2 (proj2
           linear_fit_exact))))))) Ols64.linregress);
    vm_compute; reflexivity.
Defined.

End FuelFacts.

(** ** Outcome prediction *)

Module PredictFacts.
Import Afcon MetricFacts CompareFacts.
Local Open Scope Z_scope.

Ltac bind_case m := destruct m; [reflexivity|]; rewrite ?bind_ret_l.

Ltac bind_cases :=
  repeat match goal with
         | |- ?m ≫= _ = _ => bind_case m
         end.

(** An operation with a float operand yields a float. *)
Lemma arith_float_l iop fop f b r :
  Num.arith iop fop (NFloat f) b = Return r → ∃ g, r = NFloat g.
Proof.
  unfold Num.arith. intros (x & _ & (y & _ & [= <-])%bind_Return)%bind_Return.
  eauto.
Qed.

Lemma arith_float_r iop fop a f r :
  Num.arith iop fop a (NFloat f) = Return r → ∃ g, r = NFloat g.
Proof.
  unfold Num.arith. destruct a;
    intros (x & _ & (y & _ & [= <-])%bind_Return)%bind_Return; eauto.
Qed.

(** The score computed by [predict_outcome] is the formula of the
    specification, exceptions included. *)
Lemma team_score_spec_eq (t : TeamStats) : team_score t = composite_score_spec t.
Proof.
  unfold team_score, composite_score_spec, Num.lift2.
  rewrite !bind_ret_l. bind_cases. reflexivity.
Qed.

Lemma team_score_float (t : TeamStats) (s : num) :
  team_score t = Return s → ∃ f, s = NFloat f.
Proof.
  unfold team_score.
  intros (a & Ha & H)%bind_Return.
  apply arith_float_r in Ha as [fa ->].
  apply bind_Return in H as (g & _ & H).
  apply bind_Return in H as (b & _ & H).
  apply bind_Return in H as (ab & Hab & H).
  apply arith_float_l in Hab as [fab ->].
  apply bind_Return in H as (d & _ & H).
  apply bind_Return in H as (c0 & _ & H).
  apply bind_Return in H as (c & _ & H).
  by apply arith_float_l in H.
Qed.

Lemma team_score_avg (t : TeamStats) (s : num) :
  team_score t = Return s → ∃ g, avg_goals_per_match t = Return g.
Proof.
  unfold team_score.
  intros (a & _ & (g & Hg & _)%bind_Return)%bind_Return. eauto.
Qed.

(** A sum above 0 is not a zero: the division cannot raise. *)
Lemma gt_zero_nonzero (f : spec_float) :
  Num.gt (NFloat f) (NInt 0) = true → B64.is_zero f = false.
Proof. by destruct f. Qed.

Lemma le_not_gt (a b : num) : Num.le a b = true → Num.gt a b = false.
Proof. unfold Num.le, Num.gt. by destruct (Num.compare a b) as [[]|]. Qed.

Lemma truediv_float (x y : spec_float) :
  Num.truediv (NFloat x) (NFloat y)
  = if B64.is_zero y then Raise ZeroDivisionError
    else Return (NFloat (B64.div x y)).
Proof. reflexivity. Qed.

Lemma win_prob_positive (f1 f2 : spec_float) :
  Num.gt (NFloat (B64.add f1 f2)) (NInt 0) = true →
  win_prob (NFloat f1) (NFloat f2)
  = Return (NFloat (B64.mul (B64.div f1 (B64.add f1 f2)) (B64.of_Z 100))).
Proof.
  intros H. unfold win_prob.
  change (Num.add (NFloat f1) (NFloat f2))
    with (Return (NFloat (B64.add f1 f2))).
  rewrite bind_ret_l, H, truediv_float, (gt_zero_nonzero _ H), bind_ret_l.
  unfold Num.mul, Num.arith. by rewrite to_float_int_100.
Qed.

Lemma win_prob_fallback (f1 f2 : spec_float) :
  Num.gt (NFloat (B64.add f1 f2)) (NInt 0) = false →
  win_prob (NFloat f1) (NFloat f2) = Return (NInt 50).
Proof.
  intros H. unfold win_prob.
  change (Num.add (NFloat f1) (NFloat f2))
    with (Return (NFloat (B64.add f1 f2))).
  by rewrite bind_ret_l, H.
Qed.

(** [100 - p] never raises. *)
Lemma sub_100 (p : num) :
  Num.sub (NInt 100) p
  = Return match p with
           | NInt z => NInt (100 - z)
           | NFloat f => NFloat (B64.sub (B64.of_Z 100) f)
           end.
Proof.
  destruct p as [z|f]; [done|].
  unfold Num.sub, Num.arith. by rewrite to_float_int_100.
Qed.

Lemma predict_outcome_present (self : AFCONAnalyzer) (a b : string)
    (t1 t2 : TeamStats) (p1 p2 g1 g2 : num) :
  get_team self a = Some t1 →
  get_team self b = Some t2 →
  win_probs t1 t2 = Return (p1, p2) →
  avg_goals_per_match t1 = Return g1 →
  avg_goals_per_match t2 = Return g2 →
  predict_outcome self a b
  = Return (Prediction {|
      pr_match := a +:+ " vs " +:+ b;
      prediction := dict2 a (Num.str (Num.round p1 1) +:+ "%")
                          b (Num.str (Num.round p2 1) +:+ "%");
      estimated_goals := dict2 a (Num.round g1 1) b (Num.round g2 1) |}).
Proof.
  intros H1 H2 Hp Hg1 Hg2. unfold predict_outcome.
  rewrite H1, H2, Hp. cbv beta iota delta [mbind res_bind].
  by rewrite Hg1, Hg2.
Qed.

Lemma win_probs_of_scores (t1 t2 : TeamStats) (f1 f2 : spec_float) :
  team_score t1 = Return (NFloat f1) →
  team_score t2 = Return (NFloat f2) →
  ∃ p1 p2,
    win_prob (NFloat f1) (NFloat f2) = Return p1
    ∧ Num.sub (NInt 100) p1 = Return p2
    ∧ win_probs t1 t2 = Return (p1, p2).
Proof.
  intros H1 H2. unfold win_probs. rewrite H1, H2, !bind_ret_l.
  destruct (Num.gt (NFloat (B64.add f1 f2)) (NInt 0)) eqn:E.
  - rewrite (win_prob_positive _ _ E), bind_ret_l, sub_100, bind_ret_l.
    eauto.
  - rewrite (win_prob_fallback _ _ E), bind_ret_l. eauto.
Qed.

Lemma team_score_returns (t : TeamStats) :
  in_float_range t → ∃ f, team_score t = Return (NFloat f).
Proof.
  intros Hr.
  destruct (avg_goals_returns t Hr) as (g & Hg & Hg').
  destruct (defense_returns t Hr) as (d & Hd & Hd').
  destruct Hr as (Hrank & _).
  unfold team_score. arith_steps. rewrite Hg. arith_steps.
  destruct Hg' as [->|[fg ->]]; arith_steps; rewrite Hd; arith_steps.
  all: destruct Hd' as [->|[fd ->]]; arith_steps; eauto.
Qed.

Lemma win_probs_returns (t1 t2 : TeamStats) :
  in_float_range t1 → in_float_range t2 →
  ∃ p1 p2, win_probs t1 t2 = Return (p1, p2).
Proof.
  intros [f1 H1]%team_score_returns [f2 H2]%team_score_returns.
  destruct (win_probs_of_scores t1 t2 f1 f2 H1 H2) as (p1 & p2 & _ & _ & H).
  eauto.
Qed.

Lemma predict_outcome_returns (self : AFCONAnalyzer) (a b : string)
    (t1 t2 : TeamStats) :
  get_team self a = Some t1 → get_team self b = Some t2 →
  in_float_range t1 → in_float_range t2 →
  ∃ r, predict_outcome self a b = Return (Prediction r).
Proof.
  intros H1 H2 R1 R2.
  destruct (win_probs_returns t1 t2 R1 R2) as (p1 & p2 & Hw).
  destruct (avg_goals_returns t1 R1) as (g1 & Hg1 & _).
  destruct (avg_goals_returns t2 R2) as (g2 & Hg2 & _).
  eexists. by eapply predict_outcome_present.
Qed.

(** C3: for two names present in the mapping, [predict_outcome] returns
    exactly when the composite score
    [(11 - rank) * 0.3 + avg_goals * 2 + (2 - defense_strength) * 1.5]
    of each team evaluates (to a float), which it does for all records
    within the float range; the first team's win probability is then
    [score1 / (score1 + score2) * 100] when the sum is above 0, and the
    integer 50 when the sum is at most 0; the second team's is 100 minus
    the first's, and the dictionary holds both rounded to one decimal. *)
Theorem predict_outcome_formula (self : AFCONAnalyzer) (a b : string)
    (t1 t2 : TeamStats) :
  get_team self a = Some t1 →
  get_team self b = Some t2 →
  (∀ r, predict_outcome self a b = Return r →
     ∃ f1 f2,
       composite_score_spec t1 = Return (NFloat f1)
       ∧ composite_score_spec t2 = Return (NFloat f2))
  ∧ (∀ f1 f2,
       composite_score_spec t1 = Return (NFloat f1) →
       composite_score_spec t2 = Return (NFloat f2) →
       let total := B64.add f1 f2 in
       ∃ p1 p2 r,
         (Num.gt (NFloat total) (NInt 0) = true →
            p1 = NFloat (B64.mul (B64.div f1 total) (B64.of_Z 100)))
         ∧ (Num.le (NFloat total) (NInt 0) = true → p1 = NInt 50)
         ∧ Num.sub (NInt 100) p1 = Return p2
         ∧ win_probs t1 t2 = Return (p1, p2)
         ∧ predict_outcome self a b = Return (Prediction r)
         ∧ prediction r !! b = Some (Num.str (Num.round p2 1) +:+ "%")
         ∧ (a ≠ b →
            prediction r !! a = Some (Num.str (Num.round p1 1) +:+ "%")))
  ∧ (in_float_range t1 → in_float_range t2 →
     ∃ r, predict_outcome self a b = Return (Prediction r)).
Proof.
  intros H1 H2. rewrite <- !team_score_spec_eq.
  split; [|split; [|by apply predict_outcome_returns]].
  - intros r. unfold predict_outcome, win_probs. rewrite H1, H2.
    destruct (team_score t1) as [|s1] eqn:E1; [discriminate|].
    destruct (team_score t2) as [|s2] eqn:E2; [discriminate|].
    apply team_score_float in E1 as [f1 ->].
    apply team_score_float in E2 as [f2 ->]. eauto.
  - intros f1 f2 E1 E2 total. subst total.
    destruct (win_probs_of_scores _ _ _ _ E1 E2) as (p1 & p2 & Hp1 & Hp2 & Hw).
    destruct (team_score_avg _ _ E1) as [g1 Hg1].
    destruct (team_score_avg _ _ E2) as [g2 Hg2].
    exists p1, p2. eexists. split; [|split; [|split; [|split; [|split]]]].
    + intros Hgt. rewrite (win_prob_positive _ _ Hgt) in Hp1. congruence.
    + intros Hle. apply le_not_gt in Hle.
      rewrite (win_prob_fallback _ _ Hle) in Hp1. congruence.
    + done.
    + done.
    + by eapply predict_outcome_present.
    + cbn. split; [apply dict2_lookup_2|]. apply dict2_lookup_1.
Qed.

Lemma predict_outcome_formula_witness :
  ∃ r, predict_outcome main_analyzer "Ivory Coast" "Cameroon"
       = Return (Prediction r)
       ∧ prediction r !! "Ivory Coast" = Some "760.0%"
       ∧ prediction r !! "Cameroon" = Some "-660.0%".
Proof.
  destruct (predict_outcome_formula main_analyzer "Ivory Coast" "Cameroon"
              ivory_coast cameroon eq_refl eq_refl) as (_ & H & _).
  destruct (H (B64.dec 76 1) (B64.dec (-66) 1))
    as (p1 & p2 & r & Hgt & _ & Hp2 & _ & Hr & Hb & Ha);
    [vm_compute; reflexivity|vm_compute; reflexivity|].
  exists r. split; [exact Hr|].
  rewrite Hb, Ha by done.
  rewrite Hgt in * by (vm_compute; reflexivity).
  injection Hp2 as <-. split; vm_compute; reflexivity.
Defined.

(** C10: in the mapping that [main] builds, the prediction for Ivory Coast
    against Cameroon gives 760.0% to the one and -660.0% to the other:
    Cameroon's composite score is negative while the sum of the two scores
    is above 0, and the returned probabilities are outside the range from
    0 to 100. *)
Theorem probability_out_of_range :
  ∃ (self : AFCONAnalyzer) (a b : string) (t1 t2 : TeamStats)
    (s1 s2 total p1 p2 : num) (r : prediction_dict),
    get_team self a = Some t1
    ∧ get_team self b = Some t2
    ∧ team_score t1 = Return s1
    ∧ team_score t2 = Return s2
    ∧ Num.lt s2 (NInt 0) = true
    ∧ Num.add s1 s2 = Return total
    ∧ Num.gt total (NInt 0) = true
    ∧ win_probs t1 t2 = Return (p1, p2)
    ∧ Num.gt (Num.round p1 1) (NInt 100) = true
    ∧ Num.lt (Num.round p2 1) (NInt 0) = true
    ∧ predict_outcome self a b = Return (Prediction r)
    ∧ prediction r !! a = Some (Num.str (Num.round p1 1) +:+ "%")
    ∧ prediction r !! b = Some (Num.str (Num.round p2 1) +:+ "%")
    ∧ prediction r !! a = Some "760.0%"
    ∧ prediction r !! b = Some "-660.0%".
Proof.
  exists main_analyzer, "Ivory Coast", "Cameroon", ivory_coast, cameroon.
  do 5 eexists. eexists.
  split; [reflexivity|]. split; [reflexivity|].
  split; [vm_compute; reflexivity|]. split; [vm_compute; reflexivity|].
  split; [vm_compute; reflexivity|]. split; [vm_compute; reflexivity|].
  split; [vm_compute; reflexivity|]. split; [vm_compute; reflexivity|].
  split; [vm_compute; reflexivity|]. split; [vm_compute; reflexivity|].
  split.
  { eapply (predict_outcome_present main_analyzer "Ivory Coast" "Cameroon");
      [reflexivity|reflexivity|vm_compute; reflexivity
      |vm_compute; reflexivity|vm_compute; reflexivity]. }
  cbn [prediction].
  rewrite dict2_lookup_2, dict2_lookup_1 by done.
  repeat split; vm_compute; reflexivity.
Qed.

(** C2, as stated, fails on the data set of [main]: the prediction for
    Ivory Coast (rank 9, one match won 2-0) against Mozambique (rank 92, no
    match played) does not favour Ivory Coast; both sides get 50%. *)
Lemma favourite_counterexample :
  predict_outcome main_analyzer "Ivory Coast" "Mozambique"
  = Return (Prediction {|
      pr_match := "Ivory Coast vs Mozambique";
      prediction := dict2 "Ivory Coast" "50%" "Mozambique" "50%";
      estimated_goals :=
        dict2 "Ivory Coast" (NFloat (B64.of_Z 2)) "Mozambique" (NInt 0) |})
  ∧ ¬ favours_first main_analyzer "Ivory Coast" "Mozambique".
Proof.
  split.
  - rewrite (predict_outcome_present main_analyzer "Ivory Coast" "Mozambique"
               ivory_coast mozambique (NInt 50) (NInt 50)
               (NFloat (B64.of_Z 2)) (NInt 0));
      try (vm_compute; reflexivity).
  - intros (t1 & t2 & p1 & p2 & H1 & H2 & Hw & Hgt).
    change (Some ivory_coast = Some t1) in H1. injection H1 as <-.
    change (Some mozambique = Some t2) in H2. injection H2 as <-.
    assert (Hw' : win_probs ivory_coast mozambique = Return (NInt 50, NInt 50))
      by (vm_compute; reflexivity).
    rewrite Hw' in Hw. injection Hw as <- <-. discriminate Hgt.
Qed.

(** C2, amended: for a team with rank 9, one match played and won, two
    goals for, none against and three points, against a team with rank 92
    and no match played, [compare_teams] reports goal differences 2 and 0
    and win percentages "100.0%" and "0%"; the two composite scores sum to
    a negative number, so [predict_outcome] takes the fallback and gives 50%
    to each team. *)
Theorem rank_9_against_rank_92 (self : AFCONAnalyzer) (a b : string)
    (t1 t2 : TeamStats) :
  get_team self a = Some t1 →
  get_team self b = Some t2 →
  fifa_rank t1 = 9 → matches_played t1 = 1 → wins t1 = 1 →
  goals_for t1 = 2 → goals_against t1 = 0 → points t1 = 3 →
  fifa_rank t2 = 92 → matches_played t2 = 0 → wins t2 = 0 →
  goals_for t2 = 0 → goals_against t2 = 0 → points t2 = 0 →
  ∃ (c : comparison) (p : prediction_dict) (s1 s2 total : num),
    compare_teams self a b = Return (Comparison c)
    ∧ cmp_goal_difference c !! a = Some 2
    ∧ cmp_goal_difference c !! b = Some 0
    ∧ cmp_win_percentage c !! a = Some "100.0%"
    ∧ cmp_win_percentage c !! b = Some "0%"
    ∧ team_score t1 = Return s1
    ∧ team_score t2 = Return s2
    ∧ Num.add s1 s2 = Return total
    ∧ Num.lt total (NInt 0) = true
    ∧ win_probs t1 t2 = Return (NInt 50, NInt 50)
    ∧ predict_outcome self a b = Return (Prediction p)
    ∧ prediction p !! a = Some "50%"
    ∧ prediction p !! b = Some "50%".
Proof.
  intros H1 H2 R1 M1 W1 F1 A1 P1 R2 M2 W2 F2 A2 P2.
  assert (Hab : a ≠ b) by (intros ->; congruence).
  destruct t1 as [n1 gr1 r1 m1 w1 d1 l1 gf1 ga1 pt1].
  destruct t2 as [n2 gr2 r2 m2 w2 d2 l2 gf2 ga2 pt2].
  cbn in R1, M1, W1, F1, A1, P1, R2, M2, W2, F2, A2, P2. subst.
  set (t1 := Build_TeamStats n1 gr1 9 1 1 d1 l1 2 0 3) in *.
  set (t2 := Build_TeamStats n2 gr2 92 0 0 d2 l2 0 0 0) in *.
  assert (E1 : avg_goals_per_match t1 = Return (NFloat (B64.of_Z 2)))
    by (vm_compute; reflexivity).
  assert (E2 : avg_goals_per_match t2 = Return (NInt 0)) by reflexivity.
  assert (D1 : defense_strength t1 = Return (NFloat (S754_zero false)))
    by (vm_compute; reflexivity).
  assert (D2 : defense_strength t2 = Return (NInt 0)) by reflexivity.
  assert (V1 : win_percentage t1 = Return (NFloat (B64.of_Z 100)))
    by (vm_compute; reflexivity).
  assert (V2 : win_percentage t2 = Return (NInt 0)) by reflexivity.
  assert (Hw : win_probs t1 t2 = Return (NInt 50, NInt 50))
    by (vm_compute; reflexivity).
  eexists. eexists. exists (NFloat (B64.dec 76 1)), (NFloat (B64.dec (-213) 1)).
  eexists.
  split.
  { unfold compare_teams. rewrite H1, H2, E1, E2, D1, D2, V1, V2.
    reflexivity. }
  cbn [cmp_goal_difference cmp_win_percentage].
  rewrite !dict2_lookup_2, !dict2_lookup_1 by done.
  split; [reflexivity|]. split; [reflexivity|].
  split; [vm_compute; reflexivity|]. split; [vm_compute; reflexivity|].
  split; [vm_compute; reflexivity|]. split; [vm_compute; reflexivity|].
  split; [vm_compute; reflexivity|]. split; [vm_compute; reflexivity|].
  split; [exact Hw|].
  split; [by eapply predict_outcome_present|].
  cbn [prediction]. rewrite dict2_lookup_2, dict2_lookup_1 by done.
  split; vm_compute; reflexivity.
Qed.

Lemma rank_9_against_rank_92_witness :
  ∃ (c : comparison) (p : prediction_dict),
    compare_teams main_analyzer "Ivory Coast" "Mozambique"
      = Return (Comparison c)
    ∧ cmp_win_percentage c !! "Ivory Coast" = Some "100.0%"
    ∧ predict_outcome main_analyzer "Ivory Coast" "Mozambique"
      = Return (Prediction p)
    ∧ prediction p !! "Ivory Coast" = Some "50%".
Proof.
  destruct (rank_9_against_rank_92 main_analyzer "Ivory Coast" "Mozambique"
              ivory_coast mozambique)
    as (c & p & s1 & s2 & total & Hc & _ & _ & Hw & _ & _ & _ & _ & _ & _
        & Hp & Ha & _);
    try reflexivity.
  exists c, p. auto.
Defined.

Lemma cmp_float_int_finite (f : spec_float) (z : Z) :
  B64.is_finite f = true →
  Num.cmp_float_int f z = Some ((B64.exact f).1 ?= z * (B64.exact f).2).
Proof.
  unfold Num.cmp_float_int.
  destruct f as [s|s| |s m e]; try done; by destruct (B64.exact _).
Qed.

(** A float between two integers is finite, and so is its value. *)
Lemma between_ints (f : spec_float) (lo hi : Z) :
  Num.le (NInt lo) (NFloat f) = true →
  Num.le (NFloat f) (NInt hi) = true →
  B64.is_finite f = true
  ∧ (inject_Z lo <= B64.to_Q f <= inject_Z hi)%Q.
Proof.
  intros Hlo Hhi.
  assert (Hf : B64.is_finite f = true).
  { destruct f as [s|s| |s m e]; try done. by destruct s. }
  split; [done|]. revert Hlo Hhi. unfold Num.le, Num.compare.
  rewrite !cmp_float_int_finite, B64Facts.to_Q_exact by done.
  pose proof (B64Facts.exact_den_pos f) as Hd.
  destruct (B64.exact f) as [n d]. cbn [fst snd fmap option_fmap option_map] in *.
  assert (HdQ : (0 < inject_Z d)%Q) by (by rewrite Zlt_Qlt in Hd).
  intros Hlo Hhi. split.
  - apply Qle_shift_div_l; [done|]. rewrite <- inject_Z_mult, <- Zle_Qle.
    destruct (Z.compare_spec n (lo * d)); try discriminate Hlo; lia.
  - apply Qle_shift_div_r; [done|]. rewrite <- inject_Z_mult, <- Zle_Qle.
    destruct (Z.compare_spec n (hi * d)); try discriminate Hhi; lia.
Qed.

(** The rounded probability is the binary64 number nearest to its number
    of tenths divided by ten. *)
Lemma round_of_tenths (f : spec_float) (k : Z) :
  Num.tenths (NFloat f) = Some k →
  Num.round (NFloat f) 1
  = NFloat match f with
           | S754_finite s _ _ =>
               match k with
               | 0 => S754_zero s
               | _ => B64.of_ratio k 10
               end
           | _ => f
           end.
Proof.
  destruct f as [s|s| |s m e]; try done.
  unfold Num.tenths, Num.round, B64.round. cbn [B64.is_finite].
  intros [= <-]. by destruct (B64.scaled _ 1).
Qed.

(** C1, as stated, fails for two teams that have not played, ranked 7th
    and 35th: their scores 4.2 and -4.199999999999999 nearly cancel, the
    sum 8.9e-16 is above 0, and the two probabilities, about 4.7e17 and
    -4.7e17, add up to 128 instead of 100 once rounded. *)
Lemma rounding_sum_counterexample :
  get_team near_tie_analyzer "Team 7" = Some team_7
  ∧ get_team near_tie_analyzer "Team 35" = Some team_35
  ∧ win_probs team_7 team_35
    = Return (NFloat (S754_finite false 7388718138654720 6),
              NFloat (S754_finite true 7388718138654718 6))
  ∧ predict_outcome near_tie_analyzer "Team 7" "Team 35"
    = Return (Prediction {|
        pr_match := "Team 7 vs Team 35";
        prediction := dict2 "Team 7" "4.728779608739021e+17%"
                            "Team 35" "-4.7287796087390195e+17%";
        estimated_goals := dict2 "Team 7" (NInt 0) "Team 35" (NInt 0) |})
  ∧ Num.add (Num.round (NFloat (S754_finite false 7388718138654720 6)) 1)
            (Num.round (NFloat (S754_finite true 7388718138654718 6)) 1)
    = Return (NFloat (B64.of_Z 128))
  ∧ ¬ sum_to_100 (NFloat (S754_finite false 7388718138654720 6))
                 (NFloat (S754_finite true 7388718138654718 6)).
Proof.
  assert (Hw : win_probs team_7 team_35
    = Return (NFloat (S754_finite false 7388718138654720 6),
              NFloat (S754_finite true 7388718138654718 6)))
    by (vm_compute; reflexivity).
  split; [reflexivity|]. split; [reflexivity|]. split; [exact Hw|].
  split.
  { rewrite (predict_outcome_present near_tie_analyzer "Team 7" "Team 35"
               team_7 team_35 _ _ (NInt 0) (NInt 0) eq_refl eq_refl Hw
               eq_refl eq_refl).
    vm_compute. reflexivity. }
  split; [vm_compute; reflexivity|].
  intros (k1 & k2 & H1 & H2 & Hk).
  vm_compute in H1. vm_compute in H2.
  injection H1 as <-. injection H2 as <-. lia.
Qed.

(** C1, amended: for two names present in the mapping, when the unrounded
    win probability of the first team is of magnitude at most 10^12, the
    two probabilities rounded to one decimal sum to 100.0 within 0.1 (their
    numbers of tenths sum to 1000 within 1), and these rounded values are
    the ones [predict_outcome] returns. *)
Theorem rounded_probabilities_sum (self : AFCONAnalyzer) (a b : string)
    (t1 t2 : TeamStats) (p1 p2 : num) :
  get_team self a = Some t1 →
  get_team self b = Some t2 →
  win_probs t1 t2 = Return (p1, p2) →
  Num.le (NInt (- 10 ^ 12)) p1 = true →
  Num.le p1 (NInt (10 ^ 12)) = true →
  sum_to_100 p1 p2
  ∧ ∃ r, predict_outcome self a b = Return (Prediction r)
       ∧ prediction r !! b = Some (Num.str (Num.round p2 1) +:+ "%")
       ∧ (a ≠ b → prediction r !! a = Some (Num.str (Num.round p1 1) +:+ "%")).
Proof.
  intros H1 H2 Hw Hlo Hhi. split.
  - unfold win_probs in Hw.
    apply bind_Return in Hw as (s1 & _ & Hw).
    apply bind_Return in Hw as (s2 & _ & Hw).
    apply bind_Return in Hw as (p & _ & Hw).
    rewrite sub_100, bind_ret_l in Hw. injection Hw as -> <-.
    destruct p1 as [z|f].
    + change (sum_to_100 (NInt z) (NInt (100 - z))).
      exists (10 * z), (10 * (100 - z)). repeat split. lia.
    + destruct (between_ints f _ _ Hlo Hhi) as [Hf Hb].
      destruct (B64Facts.tenths_sum_float f Hf Hb) as [Hq Hs].
      change (sum_to_100 (NFloat f) (NFloat (B64.sub (B64.of_Z 100) f))).
      exists (B64.scaled f 1), (B64.scaled (B64.sub (B64.of_Z 100) f) 1).
      unfold Num.tenths. by rewrite Hf, Hq.
  - pose proof Hw as Hw'. unfold win_probs in Hw'.
    apply bind_Return in Hw' as (s1 & Hs1 & Hw').
    apply bind_Return in Hw' as (s2 & Hs2 & _).
    destruct (team_score_avg _ _ Hs1) as [g1 Hg1].
    destruct (team_score_avg _ _ Hs2) as [g2 Hg2].
    eexists. split; [by eapply predict_outcome_present|].
    cbn [prediction]. split; [apply dict2_lookup_2|apply dict2_lookup_1].
Qed.

Lemma rounded_probabilities_sum_witness :
  sum_to_100 (NFloat (B64.mul (B64.div (B64.dec 76 1)
                                 (B64.add (B64.dec 76 1) (B64.dec (-66) 1)))
                              (B64.of_Z 100)))
             (NFloat (B64.sub (B64.of_Z 100)
                (B64.mul (B64.div (B64.dec 76 1)
                            (B64.add (B64.dec 76 1) (B64.dec (-66) 1)))
                         (B64.of_Z 100)))).
Proof.
  apply (rounded_probabilities_sum main_analyzer "Ivory Coast" "Cameroon"
           ivory_coast cameroon); try reflexivity; vm_compute; reflexivity.
Defined.

End PredictFacts.

(** ** The mapping of teams *)

Module RegistryFacts.
Import Afcon Report.

Lemma dict_get_set {V} (d : dict V) (k k' : string) (v : V) :
  dict_get (dict_set d k v) k'
  = if String.eqb k k' then Some v else dict_get d k'.
Proof.
  induction d as [|[k0 v0] d IH]; cbn; [done|].
  destruct (String.eqb_spec k0 k) as [->|Hk]; cbn.
  - by destruct (String.eqb k k').
  - destruct (String.eqb_spec k0 k') as [->|Hk']; [|done].
    by destruct (String.eqb_spec k k'); [congruence|].
Qed.

Lemma dict_get_None {V} (d : dict V) (k : string) :
  dict_get d k = None ↔ k ∉ dict_keys d.
Proof.
  induction d as [|[k0 v0] d IH]; cbn.
  - split; [intros _; apply not_elem_of_nil|done].
  - rewrite not_elem_of_cons.
    destruct (String.eqb_spec k0 k) as [->|Hk].
    + split; [done|]. by intros [? _].
    + rewrite IH. split; [by split|by intros [_ ?]].
Qed.

Lemma dict_get_Some {V} (d : dict V) (k : string) (v : V) :
  dict_get d k = Some v → (k, v) ∈ d.
Proof.
  induction d as [|[k0 v0] d IH]; cbn; [done|].
  destruct (String.eqb_spec k0 k) as [->|Hk].
  - intros [= ->]. left.
  - intros H. right. auto.
Qed.

Lemma dict_set_present {V} (d : dict V) (k : string) (v : V) :
  k ∈ dict_keys d → dict_keys (dict_set d k v) = dict_keys d.
Proof.
  induction d as [|[k0 v0] d IH]; cbn; [by intros ?%elem_of_nil|].
  destruct (String.eqb_spec k0 k) as [->|Hk]; [done|].
  intros [?|?]%elem_of_cons; [congruence|]. cbn. f_equal. auto.
Qed.

Lemma dict_set_absent {V} (d : dict V) (k : string) (v : V) :
  k ∉ dict_keys d → dict_set d k v = d ++ [(k, v)].
Proof.
  induction d as [|[k0 v0] d IH]; cbn; [done|].
  intros [? ?]%not_elem_of_cons.
  destruct (String.eqb_spec k0 k) as [->|Hk]; [done|].
  f_equal. auto.
Qed.

Lemma dict_set_values {V} (d : dict V) (k : string) (v : V) :
  v ∈ dict_values (dict_set d k v).
Proof.
  unfold dict_values. induction d as [|[k0 v0] d IH]; cbn.
  - left.
  - destruct (String.eqb k0 k); cbn; [left|by right].
Qed.

(** What every analyser built by the methods keeps: the keys of the
    mapping are pairwise distinct and each team is stored under its own
    name. *)
Lemma built_invariant (self : AFCONAnalyzer) :
  built self →
  NoDup (dict_keys (teams self))
  ∧ Forall (λ kv, name kv.2 = kv.1) (teams self).
Proof.
  induction 1 as [|self team _ [IH1 IH2]|self m _ IH];
    cbn [teams add_team add_match].
  - split; constructor.
  - destruct (decide (name team ∈ dict_keys (teams self))) as [Hin|Hout].
    + split; [by rewrite dict_set_present|].
      clear IH1 Hin. induction (teams self) as [|[k0 v0] d IH]; cbn.
      * by repeat constructor.
      * apply Forall_cons in IH2 as [Hk0 IH2].
        destruct (String.eqb_spec k0 (name team)) as [->|Hk];
          constructor; auto.
    + rewrite dict_set_absent by done. unfold dict_keys in *.
      rewrite map_app. cbn. split.
      * apply NoDup_app. split; [done|]. split; [|apply NoDup_singleton].
        intros x Hx ->%list_elem_of_singleton. done.
      * apply Forall_app. split; [done|]. by repeat constructor.
  - done.
Qed.

Lemma team_names_are_keys (self : AFCONAnalyzer) :
  built self → map name (dict_values (teams self)) = dict_keys (teams self).
Proof.
  intros [_ H]%built_invariant. unfold dict_values, dict_keys.
  induction H as [|[k v] d Hk _ IH]; cbn in *; [done|]. by rewrite Hk, IH.
Qed.

(** X1: a team that has just been added is the one [get_team] returns
    for its name, whatever was stored under that name before, and the
    look-up of every other name is left as it was. *)
Theorem get_team_add_team (self : AFCONAnalyzer) (team : TeamStats) :
  get_team (add_team self team) (name team) = Some team
  ∧ ∀ n, n ≠ name team → get_team (add_team self team) n = get_team self n.
Proof.
  unfold get_team, add_team. cbn. split.
  - by rewrite dict_get_set, String.eqb_refl.
  - intros n Hn. rewrite dict_get_set.
    by destruct (String.eqb_spec (name team) n); [congruence|].
Qed.

(** X2: [add_team] keeps the order of the names: a team whose name is
    already a key replaces the old record in place, the keys unchanged; a
    team with a new name goes to the end of the mapping. *)
Theorem add_team_keeps_order (self : AFCONAnalyzer) (team : TeamStats) :
  dict_keys (teams (add_team self team))
  = match get_team self (name team) with
    | Some _ => dict_keys (teams self)
    | None => dict_keys (teams self) ++ [name team]
    end.
Proof.
  unfold get_team, add_team. cbn.
  destruct (dict_get (teams self) (name team)) eqn:E.
  - apply dict_set_present.
    destruct (decide (name team ∈ dict_keys (teams self))) as [|Hn]; [done|].
    apply dict_get_None in Hn. congruence.
  - apply dict_get_None in E. rewrite dict_set_absent by done.
    unfold dict_keys. by rewrite map_app.
Qed.

(** X3: in an analyser built from the constructor by [add_team] and
    [add_match], the record that [get_team] returns for a name carries that
    name. *)
Theorem stored_under_own_name (self : AFCONAnalyzer) (n : string)
    (team : TeamStats) :
  built self → get_team self n = Some team → name team = n.
Proof.
  intros [_ H]%built_invariant Hg%dict_get_Some.
  rewrite Forall_forall in H. by apply H in Hg.
Qed.

Lemma stored_under_own_name_witness :
  built main_analyzer ∧ name ivory_coast = "Ivory Coast".
Proof.
  assert (H : built main_analyzer) by (unfold main_analyzer; repeat constructor).
  split; [exact H|].
  exact (stored_under_own_name main_analyzer "Ivory Coast" ivory_coast H eq_refl).
Defined.

End RegistryFacts.

(** ** More on the group standings *)

Module StandingsFacts.
Import Afcon Report RankingFacts RegistryFacts.
Local Open Scope Z_scope.

Lemma not_below_trans {A} (key : A → Z * Z) (x y z : A) :
  not_below key x y → not_below key y z → not_below key x z.
Proof.
  unfold not_below. intros H1%key_ltb_false H2%key_ltb_false.
  apply key_ltb_false. lia.
Qed.

Lemma sorted_lookup {A} (key : A → Z * Z) (l : list A) (i j : nat) (x y : A) :
  Sorted (not_below key) l → (i < j)%nat →
  l !! i = Some x → l !! j = Some y → not_below key x y.
Proof.
  intros Hs%Sorted_StronglySorted; [|intros ???; apply not_below_trans].
  revert i j. induction Hs as [|z l Hs IH Hall]; intros i j Hij Hx Hy; [done|].
  destruct j as [|j]; [lia|]. cbn in Hy. destruct i as [|i]; cbn in Hx.
  - injection Hx as ->. rewrite List.Forall_forall in Hall. apply Hall.
    apply list_elem_of_In. by eapply list_elem_of_lookup_2.
  - apply (IH i j); [lia|done..].
Qed.

(** X4: in an analyser built from the constructor by [add_team] and
    [add_match], no team name occurs twice in the standings of a group. *)
Theorem standings_names_distinct (self : AFCONAnalyzer) (g : string) :
  built self → NoDup (map st_team (analyze_group self g)).
Proof.
  intros Hb. unfold analyze_group.
  rewrite (standings_map st_team name) by done.
  rewrite sorted_reverse_perm.
  pose proof (team_names_are_keys self Hb) as Hk.
  apply built_invariant in Hb as [Hnd _]. rewrite <- Hk in Hnd.
  revert Hnd. generalize (dict_values (teams self)).
  induction l as [|t l IH]; cbn; [constructor|].
  intros [Hnot Hnd]%NoDup_cons.
  destruct (String.eqb (group t) g); cbn; [|auto].
  apply NoDup_cons. split; [|auto].
  intros Hin. apply Hnot. apply list_elem_of_fmap in Hin as (t' & -> & Hin).
  apply list_elem_of_fmap. exists t'. split; [done|].
  apply list_elem_of_In in Hin. apply filter_In in Hin as [Hin _].
  by apply list_elem_of_In.
Qed.

Lemma standings_names_distinct_witness :
  built main_analyzer ∧ NoDup (map st_team (analyze_group main_analyzer "A")).
Proof.
  assert (H : built main_analyzer) by (unfold main_analyzer; repeat constructor).
  split; [exact H|]. exact (standings_names_distinct main_analyzer "A" H).
Defined.

(** X5: teams of a group that are level on points and on goal difference
    appear in the standings in the order in which they were added to the
    mapping: the sort is stable, also in reverse. *)
Theorem ties_keep_insertion_order (self : AFCONAnalyzer) (g : string)
    (pts gd : Z) :
  map st_team
    (List.filter
       (λ s, bool_decide ((st_points s, st_goal_difference s) = (pts, gd)))
       (analyze_group self g))
  = map name
      (List.filter (λ t, bool_decide (sort_key t = (pts, gd)))
         (List.filter (λ team, String.eqb (group team) g)
            (dict_values (teams self)))).
Proof.
  unfold analyze_group.
  rewrite (standings_filter_map _
             (λ t, bool_decide (sort_key t = (pts, gd))) _ name);
    [|reflexivity..].
  by rewrite sorted_reverse_stable.
Qed.

(** X6: any entry of the standings has at least the points of every
    entry below it, and at least its goal difference when the points are
    equal; the first entry leads the whole group. *)
Theorem standings_descending (self : AFCONAnalyzer) (g : string)
    (i j : nat) (s s' : standing) :
  (i < j)%nat →
  analyze_group self g !! i = Some s →
  analyze_group self g !! j = Some s' →
  st_points s >= st_points s'
  ∧ (st_points s = st_points s' →
     st_goal_difference s >= st_goal_difference s').
Proof.
  unfold analyze_group. intros Hij.
  rewrite !list_lookup_fmap, !enumerate_lookup.
  set (sorted_teams := sorted_reverse sort_key _).
  destruct (sorted_teams !! i) as [t|] eqn:Ht; cbn; [|done].
  destruct (sorted_teams !! j) as [t'|] eqn:Ht'; cbn; [|done].
  intros [= <-] [= <-]. cbn.
  pose proof (sorted_lookup sort_key sorted_teams i j t t'
                (sorted_reverse_sorted _ _) Hij Ht Ht') as Hord.
  apply key_ltb_false in Hord. cbn in Hord. lia.
Qed.

Lemma standings_descending_witness :
  ∃ s s', analyze_group main_analyzer "A" !! 0%nat = Some s
          ∧ analyze_group main_analyzer "A" !! 2%nat = Some s'
          ∧ st_points s >= st_points s'.
Proof.
  eexists _, _. split; [reflexivity|]. split; [reflexivity|].
  refine (proj1 (standings_descending main_analyzer "A" 0 2 _ _ _
                   eq_refl eq_refl)).
  lia.
Defined.

(** X7: [analyze_group] raises nothing for a group without teams: the
    standings are the empty list exactly when no team of the mapping
    carries the group label. *)
Theorem analyze_group_empty (self : AFCONAnalyzer) (g : string) :
  analyze_group self g = []
  ↔ ∀ team, team ∈ dict_values (teams self) → group team ≠ g.
Proof.
  unfold analyze_group.
  set (group_teams := List.filter _ _).
  assert (Hl : length (map (λ it, standing_of it.1 it.2)
                  (enumerate (sorted_reverse sort_key group_teams) 1))
               = length group_teams).
  { rewrite <- (length_map st_team), (standings_map st_team name) by done.
    by rewrite length_map, sorted_reverse_perm. }
  split.
  - intros E team Hin Hg. rewrite E in Hl. symmetry in Hl.
    apply nil_length_inv in Hl.
    assert (Hin' : In team group_teams).
    { apply filter_In. split; [by apply list_elem_of_In|].
      by apply String.eqb_eq. }
    rewrite Hl in Hin'. done.
  - intros H. apply nil_length_inv. rewrite Hl.
    destruct group_teams as [|t l] eqn:E; [done|].
    assert (Hin : In t group_teams) by (rewrite E; by left).
    apply filter_In in Hin as [Hin Hg]. apply String.eqb_eq in Hg.
    apply list_elem_of_In in Hin. by apply H in Hin.
Qed.

(** X8: adding a team under a new name leaves the standings of every
    other group as they were. *)
Theorem add_team_other_group (self : AFCONAnalyzer) (team : TeamStats)
    (g : string) :
  get_team self (name team) = None → group team ≠ g →
  analyze_group (add_team self team) g = analyze_group self g.
Proof.
  intros Hn%dict_get_None Hg. unfold analyze_group, add_team. cbn.
  rewrite dict_set_absent by done. unfold dict_values.
  rewrite map_app, List.filter_app. cbn.
  destruct (String.eqb_spec (group team) g); [done|]. by rewrite app_nil_r.
Qed.

Lemma add_team_other_group_witness :
  analyze_group
    (add_team main_analyzer (mk_team "Senegal" "B" 18 1 1 0 0 3 1 3)) "A"
  = analyze_group main_analyzer "A".
Proof. apply add_team_other_group; [reflexivity|discriminate]. Defined.

(** X9: a team that has been added is listed in the standings of its own
    group, with its own figures, at the position of its index plus one:
    the entry carries the name, points, matches, wins, draws, losses,
    goals for, goals against and goal difference of the team. *)
Theorem added_team_is_ranked (self : AFCONAnalyzer) (team : TeamStats) :
  ∃ (i : nat) (s : standing),
    analyze_group (add_team self team) (group team) !! i = Some s
    ∧ s = standing_of (Z.of_nat i + 1) team
    ∧ position s = Z.of_nat i + 1
    ∧ st_team s = name team
    ∧ st_points s = points team
    ∧ st_matches s = matches_played team
    ∧ st_wins s = wins team
    ∧ st_draws s = draws team
    ∧ st_losses s = losses team
    ∧ st_goals_for s = goals_for team
    ∧ st_goals_against s = goals_against team
    ∧ st_goal_difference s = goals_for team - goals_against team.
Proof.
  unfold analyze_group, add_team. cbn [teams].
  set (group_teams := List.filter _ _).
  assert (Hin : team ∈ sorted_reverse sort_key group_teams).
  { rewrite sorted_reverse_perm. apply list_elem_of_In, filter_In.
    split; [apply list_elem_of_In, dict_set_values|apply String.eqb_refl]. }
  apply list_elem_of_lookup in Hin as [i Hi].
  exists i, (standing_of (Z.of_nat i + 1) team). split.
  - rewrite list_lookup_fmap, enumerate_lookup, Hi. cbn.
    by rewrite Z.add_comm.
  - by repeat split.
Qed.

End StandingsFacts.

(** ** The derived statistics at their end points *)

Module RecordFacts.
Import Afcon MetricFacts.
Local Open Scope Z_scope.

Lemma div_eucl_shiftl (p : positive) (k : Z) :
  0 <= k → Z.div_eucl (Z.shiftl (Z.pos p) k) (Z.pos p) = (2 ^ k, 0).
Proof.
  intros Hk. rewrite Z.shiftl_mul_pow2 by done.
  assert (E : ∀ a b, Z.div_eucl a b = (a / b, a mod b)).
  { intros a b. unfold Z.div, Z.modulo. by destruct (Z.div_eucl a b). }
  rewrite E, Z.mul_comm, Z.div_mul, Z.mod_mul by done. reflexivity.
Qed.

(** The quotient of two equal integers is exactly 1.0, however large they
    are. *)
Lemma of_ratio_same (z : Z) : z ≠ 0 → B64.of_ratio z z = B64.of_Z 1.
Proof.
  intros Hz. unfold B64.of_ratio, B64.div, B64.raw_of_Z.
  destruct z as [|p|p]; [done|..].
  all: unfold SFdiv, SFdiv_core_binary.
  all: replace (Zdigits2 (Z.pos p) + 0 - (Zdigits2 (Z.pos p) + 0)) with 0 by lia.
  all: change (Z.min (fexp B64.prec B64.emax 0) (0 - 0)) with (-53).
  all: cbv zeta; change (0 - 0 - -53) with 53; cbv beta iota.
  all: rewrite div_eucl_shiftl by done.
  all: unfold new_location; destruct (Z.even (Z.pos p)); reflexivity.
Qed.

(** A quotient with numerator 0 is a zero with the sign of the divisor. *)
Lemma of_ratio_zero (z : Z) : z ≠ 0 → B64.of_ratio 0 z = S754_zero (z <? 0).
Proof. by destruct z. Qed.

(** X10: a team that has won every match it played has a win percentage
    of exactly 100.0, whatever the number of matches; nothing is raised. *)
Theorem perfect_record (t : TeamStats) :
  matches_played t ≠ 0 → wins t = matches_played t →
  win_percentage t = Return (NFloat (B64.of_Z 100)).
Proof.
  intros Hm Hw. unfold win_percentage.
  destruct (Z.eqb_spec (matches_played t) 0); [done|].
  rewrite Hw. unfold Num.truediv.
  destruct (Z.eqb_spec (matches_played t) 0); [done|].
  rewrite of_ratio_same by done. reflexivity.
Qed.

Lemma perfect_record_witness :
  win_percentage ivory_coast = Return (NFloat (B64.of_Z 100)).
Proof. apply perfect_record; [discriminate|reflexivity]. Defined.

(** X11: for a team that has played, a count of zero gives the float 0.0,
    not the integer 0 of a team without matches: no win gives a win
    percentage of 0.0, no goal scored an average of 0.0, no goal conceded
    a defence strength of 0.0. *)
Theorem nothing_scored (t : TeamStats) :
  0 < matches_played t →
  (wins t = 0 → win_percentage t = Return (NFloat (S754_zero false)))
  ∧ (goals_for t = 0 →
     avg_goals_per_match t = Return (NFloat (S754_zero false)))
  ∧ (goals_against t = 0 →
     defense_strength t = Return (NFloat (S754_zero false))).
Proof.
  intros Hm. unfold win_percentage, avg_goals_per_match, defense_strength.
  destruct (Z.eqb_spec (matches_played t) 0); [lia|].
  assert (H0 : Num.truediv (NInt 0) (NInt (matches_played t))
               = Return (NFloat (S754_zero false))).
  { unfold Num.truediv. destruct (Z.eqb_spec (matches_played t) 0); [done|].
    rewrite of_ratio_zero by done.
    by destruct (Z.ltb_spec (matches_played t) 0); [lia|]. }
  repeat split; intros ->; by rewrite H0.
Qed.

Lemma nothing_scored_witness :
  win_percentage gabon = Return (NFloat (S754_zero false)).
Proof.
  refine (proj1 (nothing_scored gabon _) eq_refl). reflexivity.
Defined.

End RecordFacts.

(** ** The fallback of the prediction *)

Module SymmetryFacts.
Import Afcon MetricFacts PredictFacts.
Local Open Scope Z_scope.

Lemma add_comm (x y : spec_float) : B64.add x y = B64.add y x.
Proof.
  unfold B64.add, SFadd.
  destruct x as [[]|[]| |sx mx ex], y as [[]|[]| |sy my ey]; try reflexivity.
  by rewrite (Z.min_comm ex ey), Z.add_comm.
Qed.

(** The 50/50 fallback is taken exactly when both scores are floats whose
    sum is not above 0. *)
Lemma fallback_iff (t1 t2 : TeamStats) :
  win_probs t1 t2 = Return (NInt 50, NInt 50)
  ↔ ∃ f1 f2, team_score t1 = Return (NFloat f1)
             ∧ team_score t2 = Return (NFloat f2)
             ∧ Num.gt (NFloat (B64.add f1 f2)) (NInt 0) = false.
Proof.
  split.
  - unfold win_probs. intros (s1 & H1 & H)%bind_Return.
    apply bind_Return in H as (s2 & H2 & H).
    destruct (team_score_float _ _ H1) as [f1 ->].
    destruct (team_score_float _ _ H2) as [f2 ->].
    exists f1, f2. split; [done|]. split; [done|].
    destruct (Num.gt (NFloat (B64.add f1 f2)) (NInt 0)) eqn:E; [|done].
    rewrite (win_prob_positive _ _ E), bind_ret_l, sub_100, bind_ret_l in H.
    discriminate H.
  - intros (f1 & f2 & H1 & H2 & E). unfold win_probs.
    rewrite H1, H2, !bind_ret_l, (win_prob_fallback _ _ E), bind_ret_l.
    reflexivity.
Qed.

(** X12: the prediction falls back to the two integers 50 for a pair of
    teams exactly when it does so for the same pair in the other order:
    the sum of the two scores does not depend on the order. *)
Theorem fallback_symmetric (t1 t2 : TeamStats) :
  win_probs t1 t2 = Return (NInt 50, NInt 50)
  ↔ win_probs t2 t1 = Return (NInt 50, NInt 50).
Proof.
  rewrite !fallback_iff. split; intros (f1 & f2 & H1 & H2 & E);
    exists f2, f1; repeat split; try done; by rewrite add_comm.
Qed.

End SymmetryFacts.

(** ** The text report *)

Module ReportFacts.
Import Afcon Report MetricFacts CompareFacts PredictFacts RegistryFacts.
Local Open Scope string_scope.

Lemma display2_distinct {V} (a b : string) (x y : V) :
  a ≠ b → display2 a x b y = [(a, x); (b, y)].
Proof.
  intros H. unfold display2. cbn.
  by destruct (String.eqb_spec a b).
Qed.

Lemma display2_same {V} (a : string) (x y : V) : display2 a x a y = [(a, y)].
Proof. unfold display2. cbn. by rewrite String.eqb_refl. Qed.

Lemma display2_to_map {V} (a b : string) (x y : V) :
  list_to_map (display2 a x b y) = dict2 a x b y.
Proof.
  unfold dict2. destruct (decide (a = b)) as [->|H].
  - rewrite display2_same. cbn. by rewrite insert_insert_eq.
  - rewrite display2_distinct by done. cbn. by apply insert_insert_ne.
Qed.

(** X13: the dictionaries of a comparison hold their keys in the order
    of the arguments, the first name before the second, and a single key
    when the two names are equal; all seven per-team dictionaries have the
    same keys, and without the order they are the dictionaries of
    [compare_teams]. *)
Theorem compare_teams_key_order (self : AFCONAnalyzer) (a b : string) :
  compare_teams self a b = forget_order <$> compare_teams_ordered self a b
  ∧ ∀ c, compare_teams_ordered self a b = Return (Ordered c) →
      dict_keys (oc_fifa_ranks c) = (if String.eqb a b then [a] else [a; b])
      ∧ dict_keys (oc_points c) = dict_keys (oc_fifa_ranks c)
      ∧ dict_keys (oc_goal_difference c) = dict_keys (oc_fifa_ranks c)
      ∧ dict_keys (oc_offensive_power c) = dict_keys (oc_fifa_ranks c)
      ∧ dict_keys (oc_defensive_strength c) = dict_keys (oc_fifa_ranks c)
      ∧ dict_keys (oc_win_percentage c) = dict_keys (oc_fifa_ranks c)
      ∧ dict_keys (oc_recent_form c) = dict_keys (oc_fifa_ranks c).
Proof.
  unfold compare_teams, compare_teams_ordered.
  destruct (get_team self a) as [t1|];
    [|split; [done|by destruct (get_team self b)]].
  destruct (get_team self b) as [t2|]; [|by split].
  destruct (avg_goals_per_match t1) as [|o1]; [by split|].
  destruct (avg_goals_per_match t2) as [|o2]; [by split|].
  destruct (defense_strength t1) as [|d1]; [by split|].
  destruct (defense_strength t2) as [|d2]; [by split|].
  destruct (win_percentage t1) as [|w1]; [by split|].
  destruct (win_percentage t2) as [|w2]; [by split|].
  rewrite !bind_ret_l.
  count_case t1; [|by split]. rewrite !bind_ret_l.
  count_case t2; [|by split]. rewrite !bind_ret_l.
  split.
  - cbn [fmap res_fmap forget_order oc_match_up oc_fifa_ranks oc_points
         oc_goal_difference oc_offensive_power oc_defensive_strength
         oc_win_percentage oc_recent_form].
    by rewrite !display2_to_map.
  - intros c [= <-].
    cbn [oc_fifa_ranks oc_points oc_goal_difference oc_offensive_power
         oc_defensive_strength oc_win_percentage oc_recent_form].
    destruct (String.eqb_spec a b) as [->|H].
    + by rewrite !display2_same.
    + by rewrite !display2_distinct.
Qed.

(** An integer within the range of the floats, or a difference of two,
    has far fewer digits than the limit. *)
Lemma float_range_fits (z : Z) : (Z.abs z < 2 ^ 1001)%Z → Repr.fits z.
Proof.
  intros H. unfold Repr.fits. eapply Z.lt_le_trans; [exact H|].
  apply Z.leb_le. vm_compute. reflexivity.
Qed.

Lemma small_fits (z k : Z) :
  (- 10 ^ k < z < 10 ^ k)%Z → (0 <= k <= 4300)%Z → Repr.fits z.
Proof.
  intros H Hk. unfold Repr.fits, Repr.max_str_digits.
  eapply Z.lt_le_trans; [|apply (Z.pow_le_mono_r 10 k 4300); lia]. lia.
Qed.

Lemma str_num_metric (g : num) (k : Z) :
  zero_or_float g → ∃ text, str_num (Num.round g k) = Return text.
Proof.
  intros [->|[f ->]]; cbn [Num.round str_num]; [|eauto].
  rewrite str_int_limit_fits; [eauto|]. by apply (small_fits 0 1).
Qed.

Lemma str_num_zero_or_float (g : num) :
  zero_or_float g → ∃ text, str_num g = Return text.
Proof.
  intros [->|[f ->]]; cbn [str_num]; [|eauto].
  rewrite str_int_limit_fits; [eauto|]. by apply (small_fits 0 1).
Qed.

Lemma compare_ordered_present (self : AFCONAnalyzer) (a b : string)
    (t1 t2 : TeamStats) :
  get_team self a = Some t1 → get_team self b = Some t2 →
  in_float_range t1 → in_float_range t2 →
  Repr.fits (matches_played t1) → Repr.fits (matches_played t2) →
  ∃ o1 o2 d1 d2 w1 w2,
    zero_or_float o1 ∧ zero_or_float o2
    ∧ compare_teams_ordered self a b = Return (Ordered {|
      oc_match_up := a +:+ " vs " +:+ b;
      oc_fifa_ranks := display2 a (fifa_rank t1) b (fifa_rank t2);
      oc_points := display2 a (points t1) b (points t2);
      oc_goal_difference :=
        display2 a (goal_difference t1) b (goal_difference t2);
      oc_offensive_power := display2 a o1 b o2;
      oc_defensive_strength := display2 a d1 b d2;
      oc_win_percentage := display2 a w1 b w2;
      oc_recent_form :=
        display2 a (Repr.str_int (matches_played t1) +:+ " matches played")
                 b (Repr.str_int (matches_played t2) +:+ " matches played")
    |}).
Proof.
  intros H1 H2 R1 R2 F1 F2. unfold compare_teams_ordered. rewrite H1, H2.
  destruct (avg_goals_returns t1 R1) as (o1 & -> & Ho1).
  destruct (avg_goals_returns t2 R2) as (o2 & -> & Ho2).
  destruct (defense_returns t1 R1) as (d1 & -> & _).
  destruct (defense_returns t2 R2) as (d2 & -> & _).
  destruct (win_percentage_returns t1 R1) as (w1 & ->).
  destruct (win_percentage_returns t2 R2) as (w2 & ->).
  rewrite (str_int_limit_fits _ F1), (str_int_limit_fits _ F2).
  exists o1, o2. do 4 eexists. split; [done|]. split; [done|]. reflexivity.
Qed.

Lemma compare_ordered_missing (self : AFCONAnalyzer) (a b : string) :
  get_team self a = None ∨ get_team self b = None →
  compare_teams_ordered self a b
  = Return (OrderedError "One or both teams not found").
Proof.
  unfold compare_teams_ordered.
  intros [->| ->]; [done|]. by destruct (get_team self a).
Qed.

Lemma heading_block_distinct {V} (heading : string) (show : V → res string)
    (pre a b : string) (x y : V) (sx sy : string) :
  a ≠ b → show x = Return sx → show y = Return sy →
  heading_block heading show pre [(a, x); (b, y)] [a; b]
  = Done [heading; "  " +:+ a +:+ ": " +:+ pre +:+ sx;
          "  " +:+ b +:+ ": " +:+ pre +:+ sy].
Proof.
  intros H Hx Hy. unfold heading_block, team_line, item, subscript. cbn.
  rewrite !String.eqb_refl. destruct (String.eqb_spec a b); [done|].
  cbn. rewrite Hx. cbn. by rewrite Hy.
Qed.

Lemma heading_block_single {V} (heading : string) (show : V → res string)
    (pre a : string) (x : V) (sx : string) :
  show x = Return sx →
  heading_block heading show pre [(a, x)] [a] = Fail IndexError.
Proof.
  intros Hx. unfold heading_block, team_line, item, subscript. cbn.
  rewrite String.eqb_refl. cbn. by rewrite Hx.
Qed.

(** X14: formatting the comparison of a team with itself raises
    [IndexError]: the dictionaries then hold one key, and the second team
    is read at index 1. The record is within the float range and its
    match count has at most 4300 digits, so that the comparison itself
    and the line of the first team raise nothing before. *)
Theorem format_comparison_same_team (self : AFCONAnalyzer) (a : string)
    (t : TeamStats) :
  get_team self a = Some t → in_float_range t →
  Repr.fits (matches_played t) →
  (comparison ← call (compare_teams_ordered self a a);
   _format_comparison comparison) = Fail IndexError.
Proof.
  intros H R F.
  destruct (compare_ordered_present self a a t t H H R R F F)
    as (o1 & o2 & d1 & d2 & w1 & w2 & _ & _ & ->).
  cbn [call mbind outcome_bind _format_comparison oc_fifa_ranks].
  rewrite !display2_same. cbn [dict_keys map fst].
  rewrite (heading_block_single _ _ _ _ _ (Repr.str_int (fifa_rank t)));
    [done|].
  apply str_int_limit_fits, float_range_fits.
  destruct R as (Hr & _). lia.
Qed.

Lemma format_comparison_same_team_witness :
  (comparison ← call (compare_teams_ordered main_analyzer "Gabon" "Gabon");
   _format_comparison comparison) = Fail IndexError.
Proof.
  apply (format_comparison_same_team main_analyzer "Gabon" gabon);
    [reflexivity| |]; repeat split; vm_compute; reflexivity.
Defined.

Lemma format_distinct (self : AFCONAnalyzer) (a b : string)
    (t1 t2 : TeamStats) :
  a ≠ b →
  get_team self a = Some t1 → get_team self b = Some t2 →
  in_float_range t1 → in_float_range t2 →
  in_str_range t1 → in_str_range t2 →
  ∃ c text, compare_teams_ordered self a b = Return c
            ∧ _format_comparison c = Done text.
Proof.
  intros Hab H1 H2 R1 R2 S1 S2.
  destruct S1 as (Fr1 & Fm1 & _ & _ & _ & _ & _ & Fg1 & Fp1).
  destruct S2 as (Fr2 & Fm2 & _ & _ & _ & _ & _ & Fg2 & Fp2).
  destruct (compare_ordered_present self a b t1 t2 H1 H2 R1 R2 Fm1 Fm2)
    as (o1 & o2 & d1 & d2 & w1 & w2 & Ho1 & Ho2 & ->).
  destruct (str_num_zero_or_float o1 Ho1) as [so1 Hso1].
  destruct (str_num_zero_or_float o2 Ho2) as [so2 Hso2].
  eexists _, _. split; [reflexivity|].
  cbn [_format_comparison oc_fifa_ranks oc_points oc_goal_difference
       oc_offensive_power oc_defensive_strength oc_match_up].
  rewrite !display2_distinct by done.
  cbn [dict_keys map fst].
  rewrite (heading_block_distinct _ Repr.str_int_limit _ _ _ _ _
             _ _ Hab (str_int_limit_fits _ Fr1) (str_int_limit_fits _ Fr2)).
  rewrite (heading_block_distinct _ Repr.str_int_limit _ _ _ _ _
             _ _ Hab (str_int_limit_fits _ Fp1) (str_int_limit_fits _ Fp2)).
  rewrite (heading_block_distinct _ Repr.str_int_limit _ _ _ _ _
             _ _ Hab (str_int_limit_fits _ Fg1) (str_int_limit_fits _ Fg2)).
  rewrite (heading_block_distinct _ str_num _ _ _ _ _ _ _ Hab Hso1 Hso2).
  rewrite (heading_block_distinct _ Return _ _ _ _ _ _ _ Hab eq_refl eq_refl).
  reflexivity.
Qed.

Lemma stored_ranges (self : AFCONAnalyzer) (n : string) (t : TeamStats) :
  Forall (λ t, in_float_range t ∧ in_str_range t) (dict_values (teams self)) →
  get_team self n = Some t → in_float_range t ∧ in_str_range t.
Proof.
  intros HR Hg%dict_get_Some. rewrite Forall_forall in HR. apply HR.
  unfold dict_values. apply list_elem_of_fmap. by exists (n, t).
Qed.

(** X15: for two different names, and stored records that are within the
    float range and whose integers have at most 4300 digits, formatting
    the result of the comparison returns a text and raises nothing; when
    one of the names is missing the text is the error message itself. *)
Theorem format_comparison_returns (self : AFCONAnalyzer) (a b : string) :
  a ≠ b →
  Forall (λ t, in_float_range t ∧ in_str_range t) (dict_values (teams self)) →
  ∃ text,
    (comparison ← call (compare_teams_ordered self a b);
     _format_comparison comparison) = Done text
    ∧ (get_team self a = None ∨ get_team self b = None →
       text = "One or both teams not found").
Proof.
  intros Hab HR.
  destruct (get_team self a) as [t1|] eqn:H1, (get_team self b) as [t2|] eqn:H2.
  - destruct (stored_ranges _ _ _ HR H1) as [R1 S1].
    destruct (stored_ranges _ _ _ HR H2) as [R2 S2].
    destruct (format_distinct self a b t1 t2 Hab H1 H2 R1 R2 S1 S2)
      as (c & text & -> & Hf).
    exists text. split; [exact Hf|]. by intros [?|?].
  - rewrite compare_ordered_missing by (rewrite H2; auto). eauto.
  - rewrite compare_ordered_missing by (rewrite H1; auto). eauto.
  - rewrite compare_ordered_missing by (rewrite H1; auto). eauto.
Qed.

(** The records of an analyser are within both ranges: by computation. *)
Ltac ranges_by_computation :=
  repeat first [apply Forall_nil_2 | apply Forall_cons_2];
  repeat split; vm_compute; reflexivity.

Lemma format_comparison_returns_witness :
  ∃ text,
    (comparison ← call (compare_teams_ordered main_analyzer
                          "Ivory Coast" "Gabon");
     _format_comparison comparison) = Done text
    ∧ (get_team main_analyzer "Ivory Coast" = None
       ∨ get_team main_analyzer "Gabon" = None →
       text = "One or both teams not found").
Proof.
  apply (format_comparison_returns main_analyzer "Ivory Coast" "Gabon");
    [discriminate|]. ranges_by_computation.
Defined.

Lemma fixture_missing (self : AFCONAnalyzer) (title a b : string) :
  get_team self a = None ∨ get_team self b = None →
  fixture_lines self title a b = Fail (KeyError "prediction").
Proof.
  intros H. unfold fixture_lines.
  rewrite compare_ordered_missing by done.
  assert (predict_outcome self a b
          = Return (PredictError "One or both teams not found")) as ->.
  { unfold predict_outcome.
    destruct H as [->| ->]; [done|]. by destruct (get_team self a). }
  reflexivity.
Qed.

Lemma lookup_key_1 {V} (a b : string) (x y : V) :
  a ≠ b → lookup_key (dict2 a x b y) a = Done x.
Proof. intros H. unfold lookup_key. by rewrite dict2_lookup_1. Qed.

Lemma lookup_key_2 {V} (a b : string) (x y : V) :
  lookup_key (dict2 a x b y) b = Done y.
Proof. unfold lookup_key. by rewrite dict2_lookup_2. Qed.

Lemma fixture_present (self : AFCONAnalyzer) (title a b : string)
    (t1 t2 : TeamStats) :
  a ≠ b →
  get_team self a = Some t1 → get_team self b = Some t2 →
  in_float_range t1 → in_float_range t2 →
  in_str_range t1 → in_str_range t2 →
  ∃ lines, fixture_lines self title a b = Done lines.
Proof.
  intros Hab H1 H2 R1 R2 S1 S2. unfold fixture_lines.
  destruct (format_distinct self a b t1 t2 Hab H1 H2 R1 R2 S1 S2)
    as (c & text & -> & Hf).
  cbn [call mbind outcome_bind]. rewrite Hf.
  destruct (win_probs_returns t1 t2 R1 R2) as (p1 & p2 & Hw).
  destruct (avg_goals_returns t1 R1) as (g1 & Hg1 & Hz1).
  destruct (avg_goals_returns t2 R2) as (g2 & Hg2 & Hz2).
  rewrite (predict_outcome_present self a b t1 t2 p1 p2 g1 g2) by done.
  cbn [call mbind outcome_bind prediction_entry estimated_goals_entry
       prediction estimated_goals].
  rewrite !lookup_key_1, !lookup_key_2 by done.
  destruct (str_num_metric g1 1 Hz1) as [s1 Hs1].
  destruct (str_num_metric g2 1 Hz2) as [s2 Hs2].
  cbn [mbind outcome_bind]. rewrite Hs1.
  cbn [call mbind outcome_bind]. rewrite Hs2.
  eexists. reflexivity.
Qed.

(** X16: when one of the four teams that the report names, Ivory Coast,
    Mozambique, Cameroon or Gabon, is missing from the mapping, and the
    stored records are within the float range with integers of at most
    4300 digits, [generate_report] raises [KeyError] for the key
    ['prediction']: it subscripts the error dictionary of
    [predict_outcome]. *)
Theorem generate_report_missing_team (self : AFCONAnalyzer) (n : string) :
  Forall (λ t, in_float_range t ∧ in_str_range t) (dict_values (teams self)) →
  n ∈ ["Ivory Coast"; "Mozambique"; "Cameroon"; "Gabon"] →
  get_team self n = None →
  generate_report self = Fail (KeyError "prediction").
Proof.
  intros HR Hn Hmiss. unfold generate_report, report_lines.
  destruct (get_team self "Ivory Coast") as [t1|] eqn:H1;
    [|rewrite (fixture_missing self _ "Ivory Coast") by (by left);
      reflexivity].
  destruct (get_team self "Mozambique") as [t2|] eqn:H2;
    [|rewrite (fixture_missing self _ "Ivory Coast") by (by right);
      reflexivity].
  destruct (stored_ranges _ _ _ HR H1) as [R1 S1].
  destruct (stored_ranges _ _ _ HR H2) as [R2 S2].
  destruct (fixture_present self "MATCH 1: IVORY COAST vs MOZAMBIQUE"
              "Ivory Coast" "Mozambique" t1 t2) as [lines ->]; try done.
  cbn [mbind outcome_bind].
  rewrite fixture_missing; [reflexivity|].
  repeat (apply elem_of_cons in Hn as [->|Hn]); try congruence; auto.
  by apply elem_of_nil in Hn.
Qed.

Lemma generate_report_missing_team_witness :
  generate_report near_tie_analyzer = Fail (KeyError "prediction").
Proof.
  apply (generate_report_missing_team near_tie_analyzer "Gabon").
  - ranges_by_computation.
  - repeat constructor.
  - reflexivity.
Defined.

Local Open Scope Z_scope.

Lemma fits_between (z z' : Z) : 0 <= z <= z' → Repr.fits z' → Repr.fits z.
Proof. unfold Repr.fits. lia. Qed.

Lemma ljust_int_fits (z : Z) (w : nat) :
  Repr.fits z → ljust_int z w = Return (ljust (Repr.str_int z) w).
Proof. intros H. unfold ljust_int. by rewrite str_int_limit_fits. Qed.

Lemma standing_row_fits (idx : Z) (t : TeamStats) :
  Repr.fits idx → in_str_range t →
  ∃ row, standing_row (standing_of idx t) = Return row.
Proof.
  intros Hi (_ & Fm & Fw & Fd & Fl & Fgf & Fga & Fgd & Fp).
  unfold standing_row, standing_of.
  cbn [position st_team st_points st_matches st_wins st_draws st_losses
       st_goals_for st_goals_against st_goal_difference].
  rewrite !ljust_int_fits by done. eexists. reflexivity.
Qed.

Lemma standing_rows_fit (l : list TeamStats) (start : Z) :
  0 <= start → Repr.fits (start + Z.of_nat (length l)) →
  Forall in_str_range l →
  ∃ rows,
    standing_rows (map (λ it, standing_of it.1 it.2) (enumerate l start))
    = Return rows.
Proof.
  intros H0 Hf Hl. revert start H0 Hf.
  induction Hl as [|t l Ht Hl IH]; intros start H0 Hf; cbn [enumerate map].
  - eexists. reflexivity.
  - cbn [standing_rows fst snd]. cbn [length] in Hf.
    destruct (standing_row_fits start t) as [row ->]; [|done|].
    { eapply fits_between; [|exact Hf]. lia. }
    destruct (IH (start + 1)) as [rows ->]; [lia| |].
    { replace (start + 1 + Z.of_nat (length l))
        with (start + Z.of_nat (S (length l))) by lia. done. }
    eexists. reflexivity.
Qed.

(** X17: when the four teams that the report names are in the mapping,
    the stored records are within the float range with integers of at
    most 4300 digits, and so is the number of teams, [generate_report]
    returns the text of the report and raises nothing. *)
Theorem generate_report_returns (self : AFCONAnalyzer)
    (t1 t2 t3 t4 : TeamStats) :
  get_team self "Ivory Coast" = Some t1 →
  get_team self "Mozambique" = Some t2 →
  get_team self "Cameroon" = Some t3 →
  get_team self "Gabon" = Some t4 →
  Forall (λ t, in_float_range t ∧ in_str_range t) (dict_values (teams self)) →
  Repr.fits (1 + Z.of_nat (length (teams self))) →
  ∃ text, generate_report self = Done text.
Proof.
  intros H1 H2 H3 H4 HR Hlen. unfold generate_report, report_lines.
  destruct (stored_ranges _ _ _ HR H1) as [R1 S1].
  destruct (stored_ranges _ _ _ HR H2) as [R2 S2].
  destruct (stored_ranges _ _ _ HR H3) as [R3 S3].
  destruct (stored_ranges _ _ _ HR H4) as [R4 S4].
  destruct (fixture_present self "MATCH 1: IVORY COAST vs MOZAMBIQUE"
              "Ivory Coast" "Mozambique" t1 t2) as [l1 ->]; try done.
  destruct (fixture_present self "MATCH 2: CAMEROON vs GABON"
              "Cameroon" "Gabon" t3 t4) as [l2 ->]; try done.
  cbn [mbind outcome_bind]. unfold analyze_group.
  set (group_teams := List.filter _ _).
  assert (Hin : ∀ t, In t group_teams → In t (dict_values (teams self))).
  { intros t Ht. by apply filter_In in Ht as [? _]. }
  assert (Hle : (length group_teams <= length (teams self))%nat).
  { unfold group_teams, dict_values.
    etrans; [apply List.filter_length_le|]. by rewrite length_map. }
  destruct (standing_rows_fit (sorted_reverse sort_key group_teams) 1)
    as [rows ->].
  - lia.
  - rewrite (Permutation_length
               (RankingFacts.sorted_reverse_perm sort_key group_teams)).
    eapply fits_between; [|exact Hlen]. lia.
  - rewrite (RankingFacts.sorted_reverse_perm sort_key group_teams).
    apply List.Forall_forall. intros t Ht%Hin.
    rewrite Forall_forall in HR. apply list_elem_of_In in Ht.
    by apply HR in Ht as [_ ?].
  - eexists. reflexivity.
Qed.

Lemma generate_report_returns_witness :
  ∃ text, generate_report main_analyzer = Done text.
Proof.
  apply (generate_report_returns main_analyzer
           ivory_coast mozambique cameroon gabon);
    [reflexivity..|ranges_by_computation|vm_compute; reflexivity].
Defined.

(** X18: the list of matches is written and never read: after
    [add_match] every look-up, comparison, prediction and standing, and
    the report, are what they were before. *)
Theorem matches_never_read (self : AFCONAnalyzer)
    (match_info : gmap string string) :
  (∀ n, get_team (add_match self match_info) n = get_team self n)
  ∧ (∀ a b, compare_teams (add_match self match_info) a b
            = compare_teams self a b)
  ∧ (∀ a b, predict_outcome (add_match self match_info) a b
            = predict_outcome self a b)
  ∧ (∀ g, analyze_group (add_match self match_info) g = analyze_group self g)
  ∧ generate_report (add_match self match_info) = generate_report self.
Proof. repeat split. Qed.

(** The rows of the standings table in the report of [main]. *)
Example main_standings_rows :
  standing_rows (analyze_group main_analyzer "A")
  = Return
      ["1    Ivory Coast         1  1  0  0  2   0   2   3   ";
       "2    Gabon               1  0  1  0  1   1   0   1   ";
       "3    Mozambique          0  0  0  0  0   0   0   0   ";
       "4    Cameroon            0  0  0  0  0   0   0   0   "].
Proof. vm_compute. reflexivity. Qed.

Lemma length_append (s1 s2 : string) :
  String.length (s1 +:+ s2) = (String.length s1 + String.length s2)%nat.
Proof.
  induction s1 as [|c s1 IH]; [done|].
  change (String c s1 +:+ s2) with (String c (s1 +:+ s2)).
  cbn [String.length]. by rewrite IH.
Qed.

Lemma digit_char_length (d : Z) : String.length (Repr.digit_char d) = 1%nat.
Proof. unfold Repr.digit_char. by repeat case_match. Qed.

Lemma digits_fuel_length (fuel : nat) (z k : Z) (acc : string) :
  0 <= z < 10 ^ k → 1 <= k →
  Z.of_nat (String.length (Repr.digits_fuel fuel z acc))
  <= k + Z.of_nat (String.length acc).
Proof.
  revert z k acc. induction fuel as [|fuel IH]; intros z k acc Hz Hk; cbn.
  - lia.
  - destruct (Z.ltb_spec z 10).
    + rewrite length_append, digit_char_length. lia.
    + assert (2 <= k).
      { destruct (Z.le_gt_cases 2 k); [done|].
        assert (k = 1) as -> by lia. lia. }
      etrans; [apply (IH _ (k - 1))|].
      * split; [apply Z.div_pos; lia|].
        apply Z.div_lt_upper_bound; [lia|].
        replace (10 * 10 ^ (k - 1)) with (10 ^ k); [lia|].
        rewrite <- Z.pow_succ_r by lia. f_equal. lia.
      * lia.
      * rewrite length_append, digit_char_length. lia.
Qed.

(** An integer between [-10^(k-1)] and [10^k] is written with at most [k]
    characters. *)
Lemma str_int_length (z k : Z) :
  - 10 ^ (k - 1) < z < 10 ^ k → 2 <= k →
  Z.of_nat (String.length (Repr.str_int z)) <= k.
Proof.
  intros Hz Hk. unfold Repr.str_int, Repr.digits.
  destruct (Z.ltb_spec z 0).
  - change ("-" ++ ?s)%string with ("-" +:+ s). rewrite length_append.
    pose proof (digits_fuel_length (S (Z.to_nat (Z.log2 (- z))))
                  (- z) (k - 1) "").
    cbn [String.length] in *. lia.
  - etrans; [apply (digits_fuel_length _ _ k); lia|]. cbn. lia.
Qed.

Lemma repeat_string_length (n : nat) :
  String.length (repeat_string " " n) = n.
Proof.
  induction n as [|n IH]; [done|]. cbn [repeat_string].
  by rewrite length_append, IH.
Qed.

Lemma ljust_length (s : string) (w : nat) :
  String.length (ljust s w) = Nat.max (String.length s) w.
Proof.
  unfold ljust. rewrite length_append, repeat_string_length. lia.
Qed.

Lemma column_fits (z k : Z) :
  - 10 ^ (k - 1) < z < 10 ^ k → 2 <= k <= 5 → Repr.fits z.
Proof.
  intros Hz Hk. apply (small_fits z k); [|lia].
  assert (10 ^ (k - 1) <= 10 ^ k) by (apply Z.pow_le_mono_r; lia). lia.
Qed.

(** X19: a row of the standings table is formatted without an exception
    and is exactly as wide as the header line, 53 characters, so that the
    columns line up, when the team name has at most 20 characters and
    every figure fits its column: five characters for the position, three
    for matches, wins, draws and losses, four for the goals, the goal
    difference and the points. *)
Theorem standing_row_width (s : standing) :
  (String.length (st_team s) <= 20)%nat →
  0 <= position s < 10 ^ 5 →
  0 <= st_matches s < 10 ^ 3 → 0 <= st_wins s < 10 ^ 3 →
  0 <= st_draws s < 10 ^ 3 → 0 <= st_losses s < 10 ^ 3 →
  0 <= st_goals_for s < 10 ^ 4 → 0 <= st_goals_against s < 10 ^ 4 →
  - 10 ^ 3 < st_goal_difference s < 10 ^ 4 → 0 <= st_points s < 10 ^ 4 →
  ∃ row, standing_row s = Return row
         ∧ String.length row = String.length standings_header.
Proof.
  intros Hn Hp Hm Hw Hd Hl Hf Ha Hg Hs.
  change (String.length standings_header) with 53%nat.
  unfold standing_row.
  rewrite (ljust_int_fits (position s)) by (apply (column_fits _ 5); lia).
  rewrite (ljust_int_fits (st_matches s)) by (apply (column_fits _ 3); lia).
  rewrite (ljust_int_fits (st_wins s)) by (apply (column_fits _ 3); lia).
  rewrite (ljust_int_fits (st_draws s)) by (apply (column_fits _ 3); lia).
  rewrite (ljust_int_fits (st_losses s)) by (apply (column_fits _ 3); lia).
  rewrite (ljust_int_fits (st_goals_for s)) by (apply (column_fits _ 4); lia).
  rewrite (ljust_int_fits (st_goals_against s))
    by (apply (column_fits _ 4); lia).
  rewrite (ljust_int_fits (st_goal_difference s))
    by (apply (column_fits _ 4); lia).
  rewrite (ljust_int_fits (st_points s)) by (apply (column_fits _ 4); lia).
  rewrite !bind_ret_l. eexists. split; [reflexivity|].
  rewrite !length_append, !ljust_length.
  pose proof (str_int_length (position s) 5).
  pose proof (str_int_length (st_matches s) 3).
  pose proof (str_int_length (st_wins s) 3).
  pose proof (str_int_length (st_draws s) 3).
  pose proof (str_int_length (st_losses s) 3).
  pose proof (str_int_length (st_goals_for s) 4).
  pose proof (str_int_length (st_goals_against s) 4).
  pose proof (str_int_length (st_goal_difference s) 4).
  pose proof (str_int_length (st_points s) 4).
  lia.
Qed.

Lemma standing_row_width_witness :
  ∃ row, standing_row (standing_of 1 ivory_coast) = Return row
         ∧ String.length row = String.length standings_header.
Proof.
  apply standing_row_width; [vm_compute; lia|..];
    split; vm_compute; first [reflexivity | discriminate].
Defined.

End ReportFacts.

(** ** The analysis line of the fuel script *)

Module FuelReportFacts.
Import Fuel FuelReport FuelFacts.
Local Open Scope string_scope.

Lemma above_positive (s : spec_float) :
  B64.ltb lit_0_01 s = true → B64.ltb (B64.of_Z 0) s = true.
Proof. rewrite lit_0_01_value. by destruct s as [[]|[]| |[] m e]. Qed.

Lemma below_negative (s : spec_float) :
  B64.ltb s (SFopp lit_0_01) = true → B64.ltb (B64.of_Z 0) s = false.
Proof. rewrite lit_0_01_value. by destruct s as [[]|[]| |[] m e]. Qed.

(** X20: the analysis line agrees with the trend: an UPWARD trend is
    reported as an increase, a DOWNWARD trend as a decrease, and for a
    STABLE trend no analysis line is printed; a decrease is never printed
    for an upward trend, nor an increase for a downward one. *)
Theorem direction_follows_trend
    (linregress : list spec_float → list spec_float → LinregressResult)
    (prices : list spec_float) :
  analysis_line linregress prices
  = let label := trend (predict linregress prices) in
    if String.eqb label "UPWARD" then
      Some "  Analysis:                  Prices show a increase trend throughout 2024"
    else if String.eqb label "DOWNWARD" then
      Some "  Analysis:                  Prices show a decrease trend throughout 2024"
    else None.
Proof.
  unfold analysis_line, direction, predict. cbn [trend]. unfold classify.
  set (s := slope (linregress month_numbers prices)).
  destruct (B64.ltb lit_0_01 s) eqn:E1.
  - by rewrite (above_positive s E1).
  - destruct (B64.ltb s (SFopp lit_0_01)) eqn:E2; [|done].
    by rewrite (below_negative s E2).
Qed.

End FuelReportFacts.
